(** * da_api: a shallow embedding of [main.py]

    The service is a FastAPI application with four handlers
    ([upload_file], [generate_all_plots], [download_plot],
    [download_all_plots]) around pandas, matplotlib, [os.path], [zipfile]
    and the process-wide directory [PLOT_DIR].

    Handlers are embedded as computations in a state-and-exception monad
    over a [world] (current directory, file tree, log of collaborator
    calls).  Library functions the handlers call are embedded next to them:
    [str.endswith], [posixpath.join], [posixpath.basename], path lookup,
    [os.listdir], [ZipFile.write], and the way the framework turns a
    handler's return value or exception into the response on the wire. *)

From stdpp Require Import base option list strings gmap fin_maps.
From Stdlib Require Import Ascii QArith.

Local Open Scope string_scope.
Local Open Scope list_scope.

(** ** Python strings *)

Module PyStr.

(** [s.endswith(suffix)] *)
Definition endswith (s suffix : string) : bool :=
  (String.length suffix <=? String.length s)%nat &&
  String.eqb
    (String.substring (String.length s - String.length suffix)
                      (String.length suffix) s)
    suffix.

(** [s.endswith((a, b, ...))]: true when some member of the tuple is a
    suffix. *)
Definition endswith_any (s : string) (suffixes : list string) : bool :=
  existsb (endswith s) suffixes.

(** [s.startswith(prefix)] *)
Fixpoint startswith (s pre : string) : bool :=
  match pre, s with
  | EmptyString, _ => true
  | String a pre', String b s' => Ascii.eqb a b && startswith s' pre'
  | String _ _, EmptyString => false
  end.

(** [s.split("/")]: never empty, one more piece than there are slashes. *)
Fixpoint split_slash (s : string) : list string :=
  match s with
  | EmptyString => [""]
  | String c s' =>
      if Ascii.eqb c "/"%char then "" :: split_slash s'
      else match split_slash s' with
           | [] => [String c ""]
           | piece :: rest => String c piece :: rest
           end
  end.

(** No ["/"] occurs in [s]. *)
Fixpoint slash_free (s : string) : bool :=
  match s with
  | EmptyString => true
  | String c s' => negb (Ascii.eqb c "/"%char) && slash_free s'
  end.

End PyStr.

(** ** [os.path] (posixpath) *)

Module OsPath.
Import PyStr.

(** [posixpath.join(a, b)]: an absolute [b] discards [a]; otherwise the
    two are glued with one separator unless [a] is empty or already ends
    with one. *)
Definition join (a b : string) : string :=
  if startswith b "/" then b
  else if String.eqb a "" || endswith a "/" then a +:+ b
  else a +:+ "/" +:+ b.

(** [posixpath.basename(p)]: what follows the last ["/"]. *)
Definition basename (p : string) : string := List.last (split_slash p) "".

End OsPath.

(** ** Tables *)

(** A cell of the loaded sheet.  [CMissing] stands for everything
    [isna] recognises (NaN, None, NaT); [CInf true] is [float('-inf')] and
    [CInf false] is [float('inf')]; [CNum] is any finite number; [CDate] is
    a date or time value ([Timestamp], [datetime.time]), by its text. *)
Inductive cell :=
| CMissing
| CInf (negative : bool)
| CNum (q : Q)
| CText (s : string)
| CBool (b : bool)
| CDate (iso : string).

(** The dtype class of a column, as [select_dtypes(include=['number'])]
    sees it. *)
Inductive kind := Numeric | Other.

Record column := Column {
  col_name : string;
  col_kind : kind;
  col_cells : list cell
}.

(** A DataFrame: its columns, in order. *)
Definition Table := list column.

(** [len(df)]: the length of the index, which every column shares. *)
Definition num_rows (df : Table) : nat :=
  match df with
  | [] => 0
  | c :: _ => length (col_cells c)
  end.

(** All columns have equal length. *)
Definition well_formed (df : Table) : Prop :=
  ∀ c, c ∈ df → length (col_cells c) = num_rows df.

Definition is_numeric (c : column) : bool :=
  match col_kind c with Numeric => true | Other => false end.

Definition map_cells (f : cell → cell) (df : Table) : Table :=
  map (λ c, Column (col_name c) (col_kind c) (map f (col_cells c))) df.

(** ** Normalizer: [df.fillna(0)], then [df.replace([inf, -inf], 0)] *)

Definition zero : cell := CNum 0.

Definition fillna_cell (c : cell) : cell :=
  match c with
  | CMissing => zero
  | _ => c
  end.

Definition replace_inf_cell (c : cell) : cell :=
  match c with
  | CInf _ => zero
  | _ => c
  end.

Definition fillna (df : Table) : Table := map_cells fillna_cell df.
Definition replace_inf (df : Table) : Table := map_cells replace_inf_cell df.

(** Lines 31-32 and 61-62. *)
Definition normalize (df : Table) : Table := replace_inf (fillna df).

Definition is_missing (c : cell) : bool :=
  match c with CMissing => true | _ => false end.
Definition is_pos_inf (c : cell) : bool :=
  match c with CInf false => true | _ => false end.
Definition is_neg_inf (c : cell) : bool :=
  match c with CInf true => true | _ => false end.

(** Every cell of every column of the table. *)
Definition all_cells (df : Table) : list cell := concat (map col_cells df).

(** ** Record serializer: [df.to_dict(orient='records')] *)

(** A Python [dict] with string keys: insertion-ordered, one entry per key. *)
Module PyDict.

Definition t (V : Type) : Type := list (string * V).

(** [d[k] = v]: an existing key keeps its position and takes the new
    value; a new key goes to the end. *)
Fixpoint set {V} (d : t V) (k : string) (v : V) : t V :=
  match d with
  | [] => [(k, v)]
  | (k', v') :: d' =>
      if String.eqb k k' then (k', v) :: d' else (k', v') :: set d' k v
  end.

(** [dict(pairs)] *)
Definition of_pairs {V} (pairs : list (string * V)) : t V :=
  fold_left (λ d kv, set d kv.1 kv.2) pairs [].

Definition keys {V} (d : t V) : list string := map fst d.

End PyDict.

(** [df.itertuples(index=False, name=None)], the zip of the column
    arrays: one tuple per position up to the shortest array, none
    when there is no column. *)
Definition itertuples (df : Table) : list (list cell) :=
  let arrays := map col_cells df in
  match arrays with
  | [] => []
  | a :: rest =>
      let n := fold_right Nat.min (length a) (map length rest) in
      map (λ i, map (λ arr, nth i arr CMissing) arrays) (seq 0 n)
  end.

(** Line 35: [[dict(zip(columns, row)) for row in df.itertuples(...)]]. *)
Definition to_dict_records (df : Table) : list (PyDict.t cell) :=
  let columns := map col_name df in
  map (λ row, PyDict.of_pairs (combine columns row)) (itertuples df).

(** ** The process and its file tree *)

Definition bytes : Type := list Byte.byte.

Inductive node := Dir | File (data : bytes).

(** What is handed to the plotting library for one figure. *)
Inductive plot_request :=
| SeriesPlot (column plot_kind title : string) (bins : option Z)
| ScatterPlot (x y title : string)
| EmptyFigure.

(** Calls into the parsing and plotting libraries, in the order made. *)
Inductive call :=
| CallReadExcel (content : bytes)
| CallPlot (req : plot_request)
| CallSavefig (path : string).

(** The file tree maps an absolute path, as its list of components from
    the root [[]], to what is there. *)
Record world := World {
  cwd : list string;
  fs : gmap (list string) node;
  calls : list call
}.

Inductive exn :=
| HTTPException (status_code : Z) (detail : string)
| PyError (class msg : string).

Inductive outcome (A : Type) :=
| Returned (a : A)
| Raised (e : exn).
Arguments Returned {A} a.
Arguments Raised {A} e.

(** ** Path lookup *)

Module Os.
Import PyStr.

(** Walk the components [cs] from the directory [cur].  Every component,
    the empty one of a doubled or trailing slash included, is looked up in
    a directory that must exist; the last one may name something that does
    not exist yet. *)
Fixpoint walk (tree : gmap (list string) node) (cur cs : list string)
  : option (list string) :=
  match cs with
  | [] => Some cur
  | c :: cs' =>
      match tree !! cur with
      | Some Dir =>
          if String.eqb c "" || String.eqb c "." then walk tree cur cs'
          else if String.eqb c ".." then walk tree (removelast cur) cs'
          else walk tree (cur ++ [c]) cs'
      | _ => None
      end
  end.

(** The absolute location a path string denotes; the empty path denotes
    nothing. *)
Definition resolve (w : world) (p : string) : option (list string) :=
  if String.eqb p "" then None
  else walk (fs w) (if startswith p "/" then [] else cwd w) (split_slash p).

(** [os.stat(p)], [None] when it raises. *)
Definition stat (w : world) (p : string) : option node :=
  k ← resolve w p; fs w !! k.

(** [os.path.exists(p)] *)
Definition path_exists (w : world) (p : string) : bool :=
  bool_decide (is_Some (stat w p)).

(** The name [n] when [p] is the child [n] of directory [k]. *)
Fixpoint child_of (k p : list string) : option string :=
  match k, p with
  | [], [n] => Some n
  | a :: k', b :: p' => if String.eqb a b then child_of k' p' else None
  | _, _ => None
  end.

(** Names of the entries of the directory at [k], in no promised order. *)
Definition children (tree : gmap (list string) node) (k : list string)
  : list string :=
  omap (λ kv, child_of k kv.1) (map_to_list tree).

(** A name a directory entry can have. *)
Definition entry_name (n : string) : bool :=
  slash_free n && negb (String.eqb n "") && negb (String.eqb n ".")
  && negb (String.eqb n "..").

End Os.

(** ** Handlers as computations *)

Definition M (A : Type) : Type := world → outcome A * world.

Definition ret {A} (a : A) : M A := λ w, (Returned a, w).

Definition bind {A B} (m : M A) (k : A → M B) : M B :=
  λ w, match m w with
       | (Returned a, w') => k a w'
       | (Raised e, w') => (Raised e, w')
       end.

Definition raise {A} (e : exn) : M A := λ w, (Raised e, w).

(** [try: body  except Exception as e: handler(e)].  What the body did to
    the world before raising stays done. *)
Definition try_except {A} (body : M A) (handler : exn → M A) : M A :=
  λ w, match body w with
       | (Raised e, w') => handler e w'
       | done => done
       end.

Definition lift {A} (o : outcome A) : M A := λ w, (o, w).

Definition get_world : M world := λ w, (Returned w, w).

Definition log (c : call) : M unit :=
  λ w, (Returned tt, World (cwd w) (fs w) (calls w ++ [c])).

Declare Scope py_scope.
Delimit Scope py_scope with py.
Notation "x <~ m ;; k" := (bind m (λ x, k))
  (at level 100, m at next level, right associativity) : py_scope.
Notation "m ;;; k" := (bind m (λ _, k))
  (at level 100, right associativity) : py_scope.
Local Open Scope py_scope.

(** [for x in xs: acc = body(x, acc)] *)
Fixpoint for_each {A S} (xs : list A) (body : A → S → M S) (acc : S) : M S :=
  match xs with
  | [] => ret acc
  | x :: xs' => acc' <~ body x acc ;; for_each xs' body acc'
  end.

(** [os.listdir(p)] *)
Definition listdir (p : string) : M (list string) :=
  λ w, match Os.resolve w p with
       | Some k =>
           match fs w !! k with
           | Some Dir => (Returned (Os.children (fs w) k), w)
           | Some (File _) => (Raised (PyError "NotADirectoryError" p), w)
           | None => (Raised (PyError "FileNotFoundError" p), w)
           end
       | None => (Raised (PyError "FileNotFoundError" p), w)
       end.

(** [open(p, "wb").write(data)]: creates or truncates the file; the parent
    must be an existing directory and [p] must not name a directory. *)
Definition write_file (p : string) (data : bytes) : M unit :=
  λ w, match Os.resolve w p with
       | Some k =>
           match fs w !! k with
           | Some Dir => (Raised (PyError "IsADirectoryError" p), w)
           | _ =>
               if Os.entry_name (List.last (PyStr.split_slash p) "")
               then (Returned tt, World (cwd w) (<[k := File data]> (fs w)) (calls w))
               else (Raised (PyError "IsADirectoryError" p), w)
           end
       | None => (Raised (PyError "FileNotFoundError" p), w)
       end.

(** ** [zipfile] *)

(** An archive under construction: member name and content, in the order
    written. *)
Definition zip_entry : Type := string * bytes.

(** [zf.write(file_path, arcname=arcname)]: a file becomes a member named
    [arcname]; a directory becomes an empty member named [arcname/].
    ([zipfile] also normalises [arcname]; a name that [os.listdir]
    returned is left as it is.) *)
Definition zf_write (zf : list zip_entry) (file_path arcname : string)
  : M (list zip_entry) :=
  λ w, match Os.stat w file_path with
       | Some (File data) => (Returned (zf ++ [(arcname, data)]), w)
       | Some Dir => (Returned (zf ++ [(arcname +:+ "/", [])]), w)
       | None => (Raised (PyError "FileNotFoundError" file_path), w)
       end.

Definition namelist (zf : list zip_entry) : list string := map fst zf.

(** ** Requests and responses *)

(** [UploadFile] *)
Record UploadFile := {
  filename : option string;
  file : bytes
}.

(** JSON-bound Python values. *)
#[warnings="-register-all"]
Inductive pyval :=
| PStr (s : string)
| PInt (z : Z)
| PCell (c : cell)
| PList (l : list pyval)
| PDict (d : list (string * pyval)).

(** The first argument given to [FileResponse]. *)
Inductive file_arg :=
| PathStr (p : string)
| BytesIO (archive : list zip_entry).

(** What a handler returns. *)
Inductive handler_return :=
| JSONResponse (content : pyval)
| FileResponse (path : file_arg) (media_type : string) (download_name : string).

(** What [json.dumps(..., allow_nan=False)] raises on a cell, if anything:
    dates and times are not JSON serializable, NaN and the infinities are
    out of range.  (After [fillna] the only missing value left would be a
    NaN.) *)
Definition cell_json_error (c : cell) : option exn :=
  match c with
  | CDate _ =>
      Some (PyError "TypeError" "Object of type Timestamp is not JSON serializable")
  | CMissing | CInf _ =>
      Some (PyError "ValueError" "Out of range float values are not JSON compliant")
  | CNum _ | CText _ | CBool _ => None
  end.

(** The first error [json.dumps] meets in a value, going through it in
    order. *)
Fixpoint json_error (v : pyval) : option exn :=
  match v with
  | PStr _ | PInt _ => None
  | PCell c => cell_json_error c
  | PList l =>
      (fix first_error (l : list pyval) : option exn :=
         match l with
         | [] => None
         | x :: l' =>
             match json_error x with
             | Some e => Some e
             | None => first_error l'
             end
         end) l
  | PDict d =>
      (fix first_error (d : list (string * pyval)) : option exn :=
         match d with
         | [] => None
         | (_, x) :: d' =>
             match json_error x with
             | Some e => Some e
             | None => first_error d'
             end
         end) d
  end.

(** [JSONResponse(content=content)]: the body is rendered when the
    response is built, so a value that cannot be rendered raises there, in
    the handler. *)
Definition json_response (content : pyval) : M handler_return :=
  match json_error content with
  | Some e => raise e
  | None => ret (JSONResponse content)
  end.

Inductive wire_body :=
| BodyJSON (v : pyval)
| BodyBytes (data : bytes)
| BodyText (s : string).

(** What the client receives. *)
Record response := Response {
  status : Z;
  content_type : string;
  attachment : option string;
  body : wire_body
}.

Definition internal_server_error : response :=
  Response 500 "text/plain; charset=utf-8" None (BodyText "Internal Server Error").

(** The framework's part.  A [JSONResponse] is sent with status 200.  A
    [FileResponse] is sent by [os.stat]-ing and opening its path: a path
    naming a regular file gives 200 with the file's bytes and the given
    media type and download name; anything else (a missing file, a
    directory, an object that is not a path) raises while sending, outside
    the handler, and the client gets 500.  A raised [HTTPException] becomes
    its status code with [{"detail": detail}]; any other exception that
    leaves the handler becomes 500. *)
Definition send (w : world) (o : outcome handler_return) : response :=
  match o with
  | Returned (JSONResponse content) =>
      Response 200 "application/json" None (BodyJSON content)
  | Returned (FileResponse (PathStr p) media name) =>
      match Os.stat w p with
      | Some (File data) => Response 200 media (Some name) (BodyBytes data)
      | _ => internal_server_error
      end
  | Returned (FileResponse (BytesIO _) _ _) => internal_server_error
  | Raised (HTTPException code detail) =>
      Response code "application/json" None (BodyJSON (PDict [("detail", PStr detail)]))
  | Raised (PyError _ _) => internal_server_error
  end.

(** One request: run the handler, send what came out. *)
Definition serve (handler : M handler_return) (w : world) : response * world :=
  let (o, w') := handler w in (send w' o, w').

(** ** The libraries behind the handlers *)

Class Collaborators := {
  (** [pd.read_excel(file.file)] *)
  read_excel : bytes → outcome Table;
  (** the plotting call for one figure and its rendering to PNG *)
  render : Table → plot_request → outcome bytes;
  (** [str(e)] *)
  str_of : exn → string
}.

Section Handlers.
Context {libs : Collaborators}.
Import PyStr OsPath.

(** Line 12. *)
Definition PLOT_DIR : string := "plots".

(** Line 13: [os.makedirs(PLOT_DIR, exist_ok=True)].  [PLOT_DIR] has no
    directory part, so this is [os.mkdir(PLOT_DIR)] whose failure is
    ignored when [PLOT_DIR] already is a directory. *)
Definition make_plot_dir : M unit :=
  λ w, match Os.resolve w PLOT_DIR with
       | Some k =>
           match fs w !! k with
           | None =>
               (Returned tt, World (cwd w) (<[k := Dir]> (fs w)) (calls w))
           | Some Dir => (Returned tt, w)
           | Some (File _) => (Raised (PyError "FileExistsError" PLOT_DIR), w)
           end
       | None => (Raised (PyError "FileNotFoundError" PLOT_DIR), w)
       end.

(** Lines 24-25 and 54-55. *)
Definition validate_extension (upload : UploadFile) : M unit :=
  match filename upload with
  | None =>
      raise (PyError "AttributeError"
               "'NoneType' object has no attribute 'endswith'")
  | Some name =>
      if negb (endswith_any name [".xls"; ".xlsx"])
      then raise (HTTPException 400
                    "Invalid file format. Only Excel files are allowed.")
      else ret tt
  end.

(** Lines 28 and 58. *)
Definition pd_read_excel (content : bytes) : M Table :=
  log (CallReadExcel content) ;;; lift (read_excel content).

Definition records_value (records : list (PyDict.t cell)) : pyval :=
  PList (map (λ r, PDict (map (λ kv, (kv.1, PCell kv.2)) r)) records).

(** Lines 22-41, the body of the [try]. *)
Definition upload_file_body (upload : UploadFile) : M handler_return :=
  validate_extension upload ;;;
  df <~ pd_read_excel (file upload) ;;
  let df := fillna df in
  let df := replace_inf df in
  let data := to_dict_records df in
  json_response (PDict [
    ("message", PStr "File processed successfully");
    ("num_rows", PInt (Z.of_nat (num_rows df)));
    ("data", records_value data)]).

(** [POST /upload/], lines 16-44. *)
Definition upload_file (upload : UploadFile) : M handler_return :=
  try_except (upload_file_body upload)
    (λ e, raise (HTTPException 400
       ("An error occurred while processing the file: " +:+ str_of e))).

(** Line 65. *)
Definition numeric_columns (df : Table) : list string :=
  map col_name (List.filter is_numeric df).

(** Line 69. *)
Definition plot_types : list string := ["line"; "bar"; "scatter"; "hist"].

(** The plotting call of lines 78-87. *)
Definition plot (df : Table) (req : plot_request) : M bytes :=
  log (CallPlot req) ;;; lift (render df req).

(** Lines 90-93. *)
Definition save_plot (column plot_type : string) (png : bytes)
    (plot_paths : list string) : M (list string) :=
  let plot_path := join PLOT_DIR (column +:+ "_" +:+ plot_type +:+ ".png") in
  log (CallSavefig plot_path) ;;;
  write_file plot_path png ;;;
  ret (plot_paths ++ [plot_path]).

(** Lines 75-93, one turn of the inner loop. *)
Definition plot_one (df : Table) (numeric_columns : list string)
    (column plot_type : string) (plot_paths : list string)
  : M (list string) :=
  if String.eqb plot_type "line" then
    png <~ plot df (SeriesPlot column "line" ("Line Plot for " +:+ column) None) ;;
    save_plot column plot_type png plot_paths
  else if String.eqb plot_type "bar" then
    png <~ plot df (SeriesPlot column "bar" ("Bar Plot for " +:+ column) None) ;;
    save_plot column plot_type png plot_paths
  else if String.eqb plot_type "scatter" then
    if (length numeric_columns <? 2)%nat then ret plot_paths
    else match numeric_columns with
         | x :: _ =>
             png <~ plot df (ScatterPlot x column ("Scatter Plot for " +:+ column)) ;;
             save_plot column plot_type png plot_paths
         | [] => raise (PyError "IndexError" "index 0 is out of bounds")
         end
  else if String.eqb plot_type "hist" then
    png <~ plot df (SeriesPlot column "hist" ("Histogram for " +:+ column) (Some 10%Z)) ;;
    save_plot column plot_type png plot_paths
  else
    png <~ plot df EmptyFigure ;;
    save_plot column plot_type png plot_paths.

(** Lines 69-93: the sweep over numeric columns and plot types. *)
Definition plot_sweep (df : Table) (numeric_columns : list string)
  : M (list string) :=
  for_each numeric_columns
    (λ column plot_paths,
       for_each plot_types (plot_one df numeric_columns column) plot_paths)
    [].

Definition plot_url (path : string) : string :=
  "http://127.0.0.1:8000/download-plot/?plot_name=" +:+ basename path.

(** Lines 52-102, the body of the [try]. *)
Definition generate_all_plots_body (upload : UploadFile) : M handler_return :=
  validate_extension upload ;;;
  df <~ pd_read_excel (file upload) ;;
  let df := fillna df in
  let df := replace_inf df in
  let numeric_columns := numeric_columns df in
  if bool_decide (numeric_columns = [])
  then raise (HTTPException 400 "No numeric columns found to plot.")
  else
    plot_paths <~ plot_sweep df numeric_columns ;;
    json_response (PDict [
      ("message", PStr "Plots generated successfully");
      ("plots", PList (map (λ path, PStr (plot_url path)) plot_paths));
      ("download_all", PStr "http://127.0.0.1:8000/download-all-plots/")]).

(** [POST /generate-plots/], lines 47-105. *)
Definition generate_all_plots (upload : UploadFile) : M handler_return :=
  try_except (generate_all_plots_body upload)
    (λ e, raise (HTTPException 400
       ("An error occurred while creating plots: " +:+ str_of e))).

(** [GET /download-plot/], lines 108-117. *)
Definition download_plot (plot_name : string) : M handler_return :=
  let plot_path := join PLOT_DIR plot_name in
  w <~ get_world ;;
  if Os.path_exists w plot_path
  then ret (FileResponse (PathStr plot_path) "image/png" plot_name)
  else raise (HTTPException 404 "Plot not found").

(** Lines 129-132: the archive of everything [os.listdir(PLOT_DIR)]
    returns. *)
Definition archive_all : M (list zip_entry) :=
  names <~ listdir PLOT_DIR ;;
  for_each names
    (λ filename zf,
       let file_path := join PLOT_DIR filename in
       zf_write zf file_path filename)
    [].

(** [GET /download-all-plots/], lines 120-143. *)
Definition download_all_plots : M handler_return :=
  try_except
    (buffer <~ archive_all ;;
     ret (FileResponse (BytesIO buffer) "application/zip" "all_plots.zip"))
    (λ e, raise (HTTPException 500
       ("An error occurred while creating the zip file: " +:+ str_of e))).

End Handlers.

(** ** The artifact store *)

(** Where the entry [n] of the directory [PLOT_DIR] lives in the tree. *)
Definition store_key (w : world) (n : string) : list string :=
  cwd w ++ [PLOT_DIR; n].

(** The artifact named [n]: the content of the regular file of that exact
    name in the store, if there is one. *)
Definition artifact (w : world) (n : string) : option bytes :=
  match fs w !! store_key w n with
  | Some (File data) => Some data
  | _ => None
  end.

(** The store in place: the working directory and [PLOT_DIR] under it
    are directories, and [PLOT_DIR] is a flat directory of regular files
    with proper names. *)
Record store_ok (w : world) : Prop := {
  cwd_is_dir : fs w !! cwd w = Some Dir;
  plots_is_dir : fs w !! (cwd w ++ [PLOT_DIR]) = Some Dir;
  store_flat : ∀ n, fs w !! store_key w n ≠ Some Dir;
  store_names : ∀ n, is_Some (fs w !! store_key w n) → Os.entry_name n = true
}.

(** A tree in which every entry lies in a directory. *)
Definition tree_ok (tree : gmap (list string) node) : Prop :=
  ∀ k c, is_Some (tree !! (k ++ [c])) → tree !! k = Some Dir.

(** The name under which the sweep saves one figure. *)
Definition artifact_name (column plot_type : string) : string :=
  column +:+ "_" +:+ plot_type +:+ ".png".

(** [PLOT_DIR] with the file [n] holding [data]. *)
Definition with_artifact (w : world) (n : string) (data : bytes) : world :=
  World (cwd w) (<[store_key w n := File data]> (fs w)) (calls w).

Definition logged (w : world) (cs : list call) : world :=
  World (cwd w) (fs w) (calls w ++ cs).

(** The world after one figure was plotted and saved in the store. *)
Definition figure_saved (w : world) (fig : plot_request * string * bytes) : world :=
  with_artifact
    (logged w [CallPlot fig.1.1; CallSavefig (OsPath.join PLOT_DIR fig.1.2)])
    fig.1.2 fig.2.

Definition figures_saved (w : world) (figs : list (plot_request * string * bytes))
  : world :=
  fold_left figure_saved figs w.

(** A call that asks for a scatter plot. *)
Definition scatter_call (c : call) : bool :=
  match c with
  | CallPlot (ScatterPlot _ _ _) => true
  | _ => false
  end.

(** A call that plots or saves a figure. *)
Definition plotting_call (c : call) : bool :=
  match c with
  | CallPlot _ | CallSavefig _ => true
  | CallReadExcel _ => false
  end.

(** Running [m] only leads from a world to worlds related to it by [R],
    whether [m] returns or raises. *)
Definition respects (R : relation world) {A} (m : M A) : Prop :=
  ∀ w o w', m w = (o, w') → R w w'.

(** No scatter plot was asked for in between. *)
Definition same_scatter_calls : relation world :=
  λ w w', List.filter scatter_call (calls w') = List.filter scatter_call (calls w).

(** A store in place stays in place. *)
Definition keeps_store : relation world :=
  λ w w', store_ok w → store_ok w'.

(** From position [m] on, the components of [k] are proper entry names. *)
Definition proper_from (m : nat) (k : list string) : Prop :=
  ∀ (i : nat) c, k !! i = Some c → (m ≤ i)%nat → Os.entry_name c = true.

(** *** The sweep in closed form *)

(** The plot types that give a figure when there are [n] numeric columns:
    the scatter turn is skipped below two. *)
Definition plotted_types (n : nat) : list string :=
  if (n <? 2)%nat then ["line"; "bar"; "hist"] else plot_types.

(** What one turn of the inner loop asks of the plotting library. *)
Definition request_of (cols : list string) (column plot_type : string)
  : plot_request :=
  if String.eqb plot_type "line" then
    SeriesPlot column "line" ("Line Plot for " +:+ column) None
  else if String.eqb plot_type "bar" then
    SeriesPlot column "bar" ("Bar Plot for " +:+ column) None
  else if String.eqb plot_type "scatter" then
    ScatterPlot (hd "" cols) column ("Scatter Plot for " +:+ column)
  else if String.eqb plot_type "hist" then
    SeriesPlot column "hist" ("Histogram for " +:+ column) (Some 10%Z)
  else EmptyFigure.

(** The figures of one column, in the order plotted. *)
Definition column_figures (png : plot_request → bytes) (cols : list string)
    (column : string) : list (plot_request * string * bytes) :=
  map (λ t, (request_of cols column t, artifact_name column t,
             png (request_of cols column t)))
      (plotted_types (length cols)).

Definition sweep_figures (png : plot_request → bytes) (cols : list string)
  : list (plot_request * string * bytes) :=
  flat_map (column_figures png cols) cols.

(** The names of the artifacts of a sweep, in the order saved. *)
Definition sweep_names (cols : list string) : list string :=
  flat_map (λ c, map (artifact_name c) (plotted_types (length cols))) cols.

(** *** Relations between the worlds before and after a handler *)

(** Nothing in the file tree changed. *)
Definition same_tree : relation world :=
  λ w w', cwd w' = cwd w ∧ fs w' = fs w.

(** Nothing was removed: what existed exists, directories are directories. *)
Definition tree_grows : relation world :=
  λ w w', cwd w' = cwd w ∧
          ∀ k, (fs w !! k = Some Dir → fs w' !! k = Some Dir) ∧
               (is_Some (fs w !! k) → is_Some (fs w' !! k)).

(** Whenever [m] returns, what it returns satisfies [P]. *)
Definition returns_only {A} (P : A → Prop) (m : M A) : Prop :=
  ∀ w a w', m w = (Returned a, w') → P a.

Definition is_json (r : handler_return) : Prop :=
  match r with JSONResponse _ => True | FileResponse _ _ _ => False end.


(** The last value a run of assignments gives to the key [k]. *)
Fixpoint final {K V} `{EqDecision K} (l : list (K * V)) (k : K) : option V :=
  match l with
  | [] => None
  | (k', v) :: l' =>
      match final l' k with
      | Some v' => Some v'
      | None => if decide (k = k') then Some v else None
      end
  end.


(** ** Concrete inputs *)

Module Demo.

(** Libraries that always succeed: the loader yields the table it is
    given, every figure renders to the PNG signature byte. *)
Definition libs (df : Table) : Collaborators := {|
  read_excel _ := Returned df;
  render _ _ := Returned [Byte.x89];
  str_of e := match e with HTTPException _ d => d | PyError _ m => m end
|}.

(** The table [A=[1,2,3]], [B=[4,5,6]]. *)
Definition tAB : Table :=
  [ Column "A" Numeric [CNum 1; CNum 2; CNum 3];
    Column "B" Numeric [CNum 4; CNum 5; CNum 6] ].

Definition t_one : Table :=
  [ Column "name" Other [CText "x"; CMissing];
    Column "score" Numeric [CInf false; CNum (7 # 2)] ].

Definition t_text : Table :=
  [ Column "name" Other [CText "x"; CMissing; CBool true] ].

(** A process started in [/srv] with an empty [plots] directory, and a
    file [/etc/passwd] outside it. *)
Definition w0 : world :=
  World ["srv"]
    (list_to_map [ ([], Dir); (["srv"], Dir); (["srv"; "plots"], Dir);
                   (["etc"], Dir); (["etc"; "passwd"], File [Byte.x72]) ])
    [].

(** The same process after earlier requests left two artifacts. *)
Definition w1 : world :=
  with_artifact (with_artifact w0 "A_line.png" [Byte.x89]) "old_hist.png" [Byte.x50].

(** Libraries whose parser rejects the content. *)
Definition libs_unreadable : Collaborators := {|
  read_excel _ := Raised (PyError "ValueError" "Excel file format cannot be determined");
  render _ _ := Returned [Byte.x89];
  str_of e := match e with HTTPException _ d => d | PyError _ m => m end
|}.

(** Libraries that render line plots and fail on everything else. *)
Definition libs_line_only (df : Table) : Collaborators := {|
  read_excel _ := Returned df;
  render _ req :=
    match req with
    | SeriesPlot _ "line" _ _ => Returned [Byte.x89]
    | _ => Raised (PyError "TypeError" "no numeric data to plot")
    end;
  str_of e := match e with HTTPException _ d => d | PyError _ m => m end
|}.

(** A process started in an empty directory [/srv]. *)
Definition w_fresh : world :=
  World ["srv"] (list_to_map [ ([], Dir); (["srv"], Dir) ]) [].


(** A sheet whose only numeric column is named [a/b]. *)
Definition t_slash : Table :=
  [ Column "a/b" Numeric [CNum 1; CNum 2] ].

(** A sheet whose only numeric column is named [../x]. *)
Definition t_dots : Table :=
  [ Column "../x" Numeric [CNum 1; CNum 2] ].

Definition xlsx : UploadFile := {| filename := Some "data.xlsx"; file := [] |}.
Definition csv : UploadFile := {| filename := Some "data.csv"; file := [] |}.

End Demo.

(** * Properties *)

(** ** Strings and paths *)

Section Strings.
Import PyStr OsPath.

Lemma split_slash_cons c s :
  split_slash (String c s) =
    if Ascii.eqb c "/" then "" :: split_slash s
    else match split_slash s with
         | [] => [String c ""]
         | piece :: rest => String c piece :: rest
         end.
Proof. reflexivity. Qed.

Lemma split_slash_nonempty s : split_slash s ≠ [].
Proof.
  induction s as [|c s IH]; [done|].
  rewrite split_slash_cons.
  destruct (Ascii.eqb c "/"); [done|]. by destruct (split_slash s).
Qed.

Lemma split_slash_app a b :
  split_slash (a +:+ String "/" b) = split_slash a ++ split_slash b.
Proof.
  induction a as [|c a IH].
  - reflexivity.
  - change (String c a +:+ String "/" b) with (String c (a +:+ String "/" b)).
    rewrite !split_slash_cons, IH.
    destruct (Ascii.eqb c "/"); [done|].
    pose proof (split_slash_nonempty a).
    by destruct (split_slash a).
Qed.

Lemma split_slash_slash_free n : slash_free n = true → split_slash n = [n].
Proof.
  induction n as [|c n IH]; [done|].
  rewrite split_slash_cons. cbn [slash_free].
  destruct (Ascii.eqb c "/"); [done|].
  intros Hn. by rewrite IH.
Qed.

Lemma split_slash_in_store n :
  slash_free n = true → split_slash ("plots/" +:+ n) = ["plots"; n].
Proof.
  intros Hn. change ("plots/" +:+ n) with ("plots" +:+ String "/" n).
  by rewrite split_slash_app, (split_slash_slash_free n Hn).
Qed.

Lemma slash_free_app a b : slash_free (a +:+ b) = slash_free a && slash_free b.
Proof.
  induction a as [|c a IH]; [done|].
  change (String c a +:+ b) with (String c (a +:+ b)).
  cbn [slash_free]. rewrite IH. by destruct (Ascii.eqb c "/").
Qed.

Lemma startswith_slash_free n : slash_free n = true → startswith n "/" = false.
Proof.
  destruct n as [|c n]; [done|].
  cbn [slash_free startswith].
  destruct (Ascii.eqb_spec c "/") as [->|Hc]; [done|].
  intros _. by destruct (Ascii.eqb_spec "/" c) as [<-|].
Qed.

Lemma join_relative n :
  startswith n "/" = false → join PLOT_DIR n = "plots/" +:+ n.
Proof. intros Hn. unfold join. by rewrite Hn. Qed.

Lemma join_absolute n : startswith n "/" = true → join PLOT_DIR n = n.
Proof. intros Hn. unfold join. by rewrite Hn. Qed.

Lemma length_app_string a b :
  String.length (a +:+ b) = (String.length a + String.length b)%nat.
Proof. induction a; simpl; auto. Qed.

Lemma basename_in_store n : slash_free n = true → basename ("plots/" +:+ n) = n.
Proof.
  intros Hn. unfold basename. by rewrite split_slash_in_store.
Qed.

Lemma artifact_name_ok column plot_type :
  slash_free column = true → slash_free plot_type = true →
  Os.entry_name (artifact_name column plot_type) = true.
Proof.
  intros Hc Ht. unfold Os.entry_name, artifact_name.
  rewrite !slash_free_app, Hc, Ht. simpl.
  assert (Hlen : (5 <= String.length (column +:+ "_" +:+ plot_type +:+ ".png"))%nat).
  { rewrite !length_app_string. simpl. lia. }
  repeat match goal with
  | |- context [String.eqb ?a ?b] =>
      destruct (String.eqb_spec a b) as [Heq|_];
      [rewrite Heq in Hlen; simpl in Hlen; lia|]
  end.
  done.
Qed.

End Strings.

(** ** The file tree *)

Section Store.
Import PyStr OsPath.

Lemma entry_name_inv n :
  Os.entry_name n = true →
  slash_free n = true ∧ String.eqb n "" = false ∧
  String.eqb n "." = false ∧ String.eqb n ".." = false.
Proof.
  unfold Os.entry_name. intros Hn.
  repeat (apply andb_prop in Hn as [Hn ?]).
  repeat split; try done; by apply negb_true_iff.
Qed.

Lemma store_key_app w n : store_key w n = (cwd w ++ [PLOT_DIR]) ++ [n].
Proof. unfold store_key. by rewrite <- app_assoc. Qed.

Lemma join_in_store n :
  Os.entry_name n = true → join PLOT_DIR n = "plots/" +:+ n.
Proof.
  intros (Hn & _)%entry_name_inv.
  by apply join_relative, startswith_slash_free.
Qed.

Lemma resolve_in_store w n :
  fs w !! cwd w = Some Dir →
  fs w !! (cwd w ++ [PLOT_DIR]) = Some Dir →
  Os.entry_name n = true →
  Os.resolve w (join PLOT_DIR n) = Some (store_key w n).
Proof.
  intros Hcwd Hplots Hname.
  rewrite (join_in_store n Hname).
  destruct (entry_name_inv n Hname) as (Hfree & Hne & Hdot & Hdots).
  unfold Os.resolve.
  change (String.eqb ("plots/" +:+ n) "") with false.
  change (startswith ("plots/" +:+ n) "/") with false.
  cbn match. rewrite (split_slash_in_store n Hfree).
  cbn [Os.walk]. rewrite Hcwd.
  change (String.eqb "plots" "" || String.eqb "plots" ".") with false.
  change (String.eqb "plots" "..") with false.
  cbn match. fold PLOT_DIR. rewrite Hplots, Hne, Hdot, Hdots.
  cbn. by rewrite store_key_app.
Qed.

Lemma store_key_inj w n n' : store_key w n = store_key w n' → n = n'.
Proof. unfold store_key. intros Heq%app_inv_head. congruence. Qed.

Lemma store_key_not_cwd w n : store_key w n ≠ cwd w.
Proof.
  unfold store_key. intros Heq.
  apply (f_equal length) in Heq. rewrite length_app in Heq. simpl in Heq. lia.
Qed.

Lemma store_key_not_plots w n : store_key w n ≠ cwd w ++ [PLOT_DIR].
Proof.
  unfold store_key. intros Heq.
  apply (f_equal length) in Heq. rewrite !length_app in Heq. simpl in Heq. lia.
Qed.

Lemma stat_in_store w n :
  store_ok w → Os.entry_name n = true →
  Os.stat w (join PLOT_DIR n) = fs w !! store_key w n.
Proof.
  intros [Hcwd Hplots _ _] Hname. unfold Os.stat.
  by rewrite (resolve_in_store w n Hcwd Hplots Hname).
Qed.

Lemma artifact_Some w n data :
  artifact w n = Some data ↔ fs w !! store_key w n = Some (File data).
Proof.
  unfold artifact.
  destruct (fs w !! store_key w n) as [[|d]|]; split; congruence.
Qed.

Lemma stat_artifact w n data :
  store_ok w → artifact w n = Some data →
  Os.stat w (join PLOT_DIR n) = Some (File data).
Proof.
  intros Hok Hart%artifact_Some.
  rewrite stat_in_store; [done..|].
  apply (store_names w Hok). by rewrite Hart.
Qed.

Lemma write_in_store w n data :
  store_ok w → Os.entry_name n = true →
  write_file (join PLOT_DIR n) data w = (Returned tt, with_artifact w n data).
Proof.
  intros Hok Hname. destruct Hok as [Hcwd Hplots Hflat Hnames].
  unfold write_file.
  rewrite (resolve_in_store w n Hcwd Hplots Hname).
  rewrite (join_in_store n Hname).
  destruct (entry_name_inv n Hname) as (Hfree & _).
  rewrite (split_slash_in_store n Hfree). cbn [List.last].
  rewrite Hname. specialize (Hflat n).
  by destruct (fs w !! store_key w n) as [[|d]|].
Qed.

Lemma with_artifact_ok w n data :
  store_ok w → Os.entry_name n = true → store_ok (with_artifact w n data).
Proof.
  intros [Hcwd Hplots Hflat Hnames] Hname.
  split; cbn [with_artifact fs cwd].
  - rewrite lookup_insert_ne; [done|]. apply store_key_not_cwd.
  - rewrite lookup_insert_ne; [done|]. apply store_key_not_plots.
  - intros n'. change (store_key (with_artifact w n data) n') with (store_key w n').
    destruct (decide (n = n')) as [<-|Hne].
    + by rewrite lookup_insert_eq.
    + rewrite lookup_insert_ne; [apply Hflat|].
      intros Heq. by apply Hne, (store_key_inj w).
  - intros n'. change (store_key (with_artifact w n data) n') with (store_key w n').
    destruct (decide (n = n')) as [<-|Hne]; [done|].
    rewrite lookup_insert_ne; [apply Hnames|].
    intros Heq. by apply Hne, (store_key_inj w).
Qed.

Lemma logged_ok w cs : store_ok w → store_ok (logged w cs).
Proof. by intros []. Qed.

Lemma child_of_spec k p n : Os.child_of k p = Some n ↔ p = k ++ [n].
Proof.
  revert p. induction k as [|a k IH]; intros p.
  - destruct p as [|b [|c p]]; cbn; split; congruence.
  - destruct p as [|b p]; cbn; [split; [done|]; by destruct k|].
    destruct (String.eqb_spec a b) as [->|Hab].
    + rewrite IH. split; congruence.
    + split; [done|]. congruence.
Qed.

Lemma elem_of_children (tree : gmap (list string) node) k n :
  n ∈ Os.children tree k ↔ is_Some (tree !! (k ++ [n])).
Proof.
  unfold Os.children. rewrite list_elem_of_omap. split.
  - intros ([p x] & Hin%elem_of_map_to_list & Hchild%child_of_spec).
    cbn in Hchild. subst p. eauto.
  - intros [x Hx]. exists (k ++ [n], x). split.
    + by apply elem_of_map_to_list.
    + by apply child_of_spec.
Qed.

Lemma NoDup_omap_child k (l : list (list string * node)) :
  NoDup l.*1 → NoDup (omap (λ kv, Os.child_of k kv.1) l).
Proof.
  induction l as [|[p x] l IH]; cbn; [constructor|].
  intros [Hp Hl]%NoDup_cons.
  destruct (Os.child_of k p) as [n|] eqn:Hchild; [|by apply IH].
  apply NoDup_cons. split; [|by apply IH].
  rewrite list_elem_of_omap. intros ([p' x'] & Hin & Hchild').
  apply child_of_spec in Hchild, Hchild'. cbn in Hchild'. subst p p'.
  apply Hp. apply list_elem_of_fmap. by exists (k ++ [n], x').
Qed.

Lemma NoDup_children (tree : gmap (list string) node) k :
  NoDup (Os.children tree k).
Proof. apply NoDup_omap_child, NoDup_fst_map_to_list. Qed.

End Store.

(** ** Normalizer *)

Section Normalizer.

Lemma map_cells_map_cells f g df :
  map_cells f (map_cells g df) = map_cells (f ∘ g) df.
Proof.
  unfold map_cells. rewrite map_map. apply map_ext. intros c. cbn.
  by rewrite map_map.
Qed.

Lemma normalize_map_cells df :
  normalize df = map_cells (replace_inf_cell ∘ fillna_cell) df.
Proof. unfold normalize, replace_inf, fillna. apply map_cells_map_cells. Qed.

Lemma normalize_cell_idem c :
  replace_inf_cell (fillna_cell (replace_inf_cell (fillna_cell c))) =
  replace_inf_cell (fillna_cell c).
Proof. by destruct c. Qed.

Lemma normalize_cell_clean c :
  let c' := replace_inf_cell (fillna_cell c) in
  is_missing c' = false ∧ is_pos_inf c' = false ∧ is_neg_inf c' = false.
Proof. by destruct c. Qed.

Lemma elem_of_all_cells_map_cells f df c' :
  c' ∈ all_cells (map_cells f df) → ∃ c, c ∈ all_cells df ∧ c' = f c.
Proof.
  unfold all_cells, map_cells. rewrite map_map. cbn.
  induction df as [|col df IH]; cbn.
  - by intros ?%elem_of_nil.
  - rewrite elem_of_app. intros [Hin|Hin].
    + apply list_elem_of_In, in_map_iff in Hin as (c & <- & Hc).
      exists c. split; [|done]. apply elem_of_app. left. by apply list_elem_of_In.
    + destruct (IH Hin) as (c & Hc & ->).
      exists c. split; [|done]. apply elem_of_app. by right.
Qed.

Lemma map_cells_names f df : map col_name (map_cells f df) = map col_name df.
Proof. unfold map_cells. by rewrite map_map. Qed.

Lemma map_cells_kinds f df : map col_kind (map_cells f df) = map col_kind df.
Proof. unfold map_cells. by rewrite map_map. Qed.

Lemma map_cells_num_rows f df : num_rows (map_cells f df) = num_rows df.
Proof. destruct df as [|c df]; cbn; [done|]. by rewrite length_map. Qed.



(** C2. The normalizer is idempotent: applied twice it yields the same
    table as applied once.  After one application no cell of any column,
    whatever the column's kind, is missing, positive infinite or negative
    infinite.  It is a total function that keeps the columns' names, kinds
    and lengths.  This holds for every table, well-formed ones included. *)
Theorem normalize_idempotent_and_clean (df : Table) :
  normalize (normalize df) = normalize df ∧
  (∀ c, c ∈ all_cells (normalize df) →
        is_missing c = false ∧ is_pos_inf c = false ∧ is_neg_inf c = false) ∧
  map col_name (normalize df) = map col_name df ∧
  map col_kind (normalize df) = map col_kind df ∧
  num_rows (normalize df) = num_rows df.
Proof.
  rewrite !normalize_map_cells. repeat split.
  - rewrite map_cells_map_cells. unfold map_cells. apply map_ext.
    intros col. f_equal. apply map_ext. intros c. apply normalize_cell_idem.
  - apply elem_of_all_cells_map_cells in H as (c0 & _ & ->).
    apply normalize_cell_clean.
  - apply elem_of_all_cells_map_cells in H as (c0 & _ & ->).
    apply normalize_cell_clean.
  - apply elem_of_all_cells_map_cells in H as (c0 & _ & ->).
    apply normalize_cell_clean.
  - apply map_cells_names.
  - apply map_cells_kinds.
  - apply map_cells_num_rows.
Qed.

End Normalizer.

(** ** Record serializer *)

Section Serializer.

Lemma keys_set {V} (d : PyDict.t V) k v :
  PyDict.keys (PyDict.set d k v) =
    if bool_decide (k ∈ PyDict.keys d) then PyDict.keys d
    else PyDict.keys d ++ [k].
Proof.
  induction d as [|[k' v'] d IH]; cbn.
  - rewrite bool_decide_eq_false_2; [done|]. by intros ?%elem_of_nil.
  - destruct (String.eqb_spec k k') as [->|Hne]; cbn.
    + rewrite bool_decide_eq_true_2; [done|]. apply elem_of_cons. by left.
    + fold (PyDict.keys d). fold (PyDict.keys (PyDict.set d k v)). rewrite IH.
      destruct (decide (k ∈ PyDict.keys d)) as [Hin|Hnin].
      * rewrite !bool_decide_eq_true_2; [done|by apply elem_of_cons; right|done].
      * rewrite !bool_decide_eq_false_2; [done| |done].
        intros [?|?]%elem_of_cons; by subst.
Qed.

Lemma set_fresh {V} (d : PyDict.t V) k v :
  k ∉ PyDict.keys d → PyDict.set d k v = d ++ [(k, v)].
Proof.
  induction d as [|[k' v'] d IH]; cbn; [done|].
  intros Hnin. apply not_elem_of_cons in Hnin as [Hne Hnin].
  destruct (String.eqb_spec k k') as [->|_]; [done|].
  by rewrite IH.
Qed.

(** The dictionary a run of assignments builds on top of [d]. *)
Lemma fold_set_cons {V} (k : string) (v : V) pairs (d : PyDict.t V) :
  fold_left (λ d kv, PyDict.set d kv.1 kv.2) ((k, v) :: pairs) d
  = fold_left (λ d kv, PyDict.set d kv.1 kv.2) pairs (PyDict.set d k v).
Proof. reflexivity. Qed.

Lemma fold_set_keys {V} (pairs : list (string * V)) (d : PyDict.t V) :
  (NoDup (PyDict.keys d) →
     NoDup (PyDict.keys (fold_left (λ d kv, PyDict.set d kv.1 kv.2) pairs d))) ∧
  (∃ added,
     PyDict.keys (fold_left (λ d kv, PyDict.set d kv.1 kv.2) pairs d)
       = PyDict.keys d ++ added ∧
     added `sublist_of` pairs.*1) ∧
  (∀ k, k ∈ PyDict.keys (fold_left (λ d kv, PyDict.set d kv.1 kv.2) pairs d)
        ↔ k ∈ PyDict.keys d ∨ k ∈ pairs.*1) ∧
  (NoDup (PyDict.keys d ++ pairs.*1) →
     fold_left (λ d kv, PyDict.set d kv.1 kv.2) pairs d = d ++ pairs).
Proof.
  revert d. induction pairs as [|[k v] pairs IH]; intros d.
  - cbn [fold_left]. rewrite fmap_nil. split_and!.
    + done.
    + exists []. by rewrite app_nil_r.
    + intros k. rewrite elem_of_nil. tauto.
    + intros _. by rewrite app_nil_r.
  - rewrite fold_set_cons, fmap_cons. cbn [fst].
    destruct (IH (PyDict.set d k v)) as (Hnd & (added & Hkeys & Hsub) & Hmem & Heq).
    rewrite keys_set in Hnd, Hkeys, Hmem, Heq.
    destruct (decide (k ∈ PyDict.keys d)) as [Hin|Hnin].
    + rewrite bool_decide_eq_true_2 in Hnd, Hkeys, Hmem, Heq by done.
      split_and!.
      * done.
      * exists added. split; [done|]. by apply sublist_cons.
      * intros k'. rewrite Hmem, elem_of_cons.
        split; [tauto|]. intros [?|[->|?]]; auto.
      * intros Hdup. apply NoDup_app in Hdup as (_ & Hdisj & _).
        exfalso. apply (Hdisj k Hin). apply elem_of_cons. by left.
    + rewrite bool_decide_eq_false_2 in Hnd, Hkeys, Hmem, Heq by done.
      split_and!.
      * intros Hd. apply Hnd. apply NoDup_app.
        split_and!; [done| |apply NoDup_singleton].
        by intros k' Hk' ->%list_elem_of_singleton.
      * exists (k :: added). split.
        -- by rewrite Hkeys, <- app_assoc.
        -- by apply sublist_skip.
      * intros k'. rewrite Hmem, elem_of_app, list_elem_of_singleton, elem_of_cons.
        tauto.
      * intros Hdup. rewrite Heq.
        -- rewrite set_fresh by done. by rewrite <- app_assoc.
        -- by rewrite <- app_assoc.
Qed.

Lemma of_pairs_keys {V} (pairs : list (string * V)) :
  NoDup (PyDict.keys (PyDict.of_pairs pairs)) ∧
  PyDict.keys (PyDict.of_pairs pairs) `sublist_of` pairs.*1 ∧
  (∀ k, k ∈ PyDict.keys (PyDict.of_pairs pairs) ↔ k ∈ pairs.*1) ∧
  (NoDup pairs.*1 → PyDict.of_pairs pairs = pairs).
Proof.
  unfold PyDict.of_pairs.
  destruct (fold_set_keys pairs []) as (Hnd & (added & Hkeys & Hsub) & Hmem & Heq).
  split_and!.
  - apply Hnd. constructor.
  - by rewrite Hkeys.
  - intros k. rewrite Hmem. cbn. rewrite elem_of_nil. tauto.
  - apply Heq.
Qed.

Lemma well_formed_min_length c df :
  well_formed (c :: df) →
  fold_right Nat.min (length (col_cells c)) (map length (map col_cells df))
  = length (col_cells c).
Proof.
  intros Hwf.
  assert (Hall : ∀ c', c' ∈ df → length (col_cells c') = length (col_cells c)).
  { intros c' Hc'. apply (Hwf c'). apply elem_of_cons. by right. }
  clear Hwf. induction df as [|c' df IH]; cbn; [done|].
  rewrite IH.
  - rewrite (Hall c'); [lia|]. apply elem_of_cons. by left.
  - intros c'' Hc''. apply Hall. apply elem_of_cons. by right.
Qed.

Lemma itertuples_length df : well_formed df → length (itertuples df) = num_rows df.
Proof.
  destruct df as [|c df]; [done|]. intros Hwf.
  unfold itertuples. cbn [map]. rewrite length_map, length_seq.
  by apply well_formed_min_length.
Qed.

Lemma itertuples_lookup df i row :
  well_formed df → itertuples df !! i = Some row →
  (i < num_rows df)%nat ∧ row = map (λ c, nth i (col_cells c) CMissing) df.
Proof.
  destruct df as [|c df]; [done|]. intros Hwf.
  unfold itertuples. cbn [map].
  rewrite (well_formed_min_length c df Hwf).
  rewrite list_lookup_fmap.
  destruct (seq 0 (length (col_cells c)) !! i) as [j|] eqn:Hj; [|done].
  apply lookup_seq in Hj as [-> Hlt]. cbn. intros [= <-]. split; [done|].
  by rewrite map_map.
Qed.

Lemma combine_names_row df i :
  combine (map col_name df) (map (λ c, nth i (col_cells c) CMissing) df)
  = map (λ c, (col_name c, nth i (col_cells c) CMissing)) df.
Proof. induction df as [|c df IH]; cbn; [done|]. by rewrite IH. Qed.

(** C7. For a well-formed table, normalized ones included, the record
    serializer yields one record per row, in row order: the sequence is as
    long as the table has rows, and record [i] is built from row [i].  The
    keys of every record are distinct, taken in column order from the
    column names, and the same set as the column names; when no two columns
    share a name, record [i] is exactly the columns' names paired with their
    cells of row [i], in column order.  The serializer is a total function
    of the table. *)
Theorem to_dict_records_shape (df : Table) :
  well_formed df →
  length (to_dict_records df) = num_rows df ∧
  ∀ i r, to_dict_records df !! i = Some r →
    (i < num_rows df)%nat ∧
    r = PyDict.of_pairs (map (λ c, (col_name c, nth i (col_cells c) CMissing)) df) ∧
    NoDup (PyDict.keys r) ∧
    PyDict.keys r `sublist_of` map col_name df ∧
    (∀ k, k ∈ PyDict.keys r ↔ k ∈ map col_name df) ∧
    (NoDup (map col_name df) →
       PyDict.keys r = map col_name df ∧
       r = map (λ c, (col_name c, nth i (col_cells c) CMissing)) df).
Proof.
  intros Hwf. split.
  - unfold to_dict_records. rewrite length_map. by apply itertuples_length.
  - intros i r. unfold to_dict_records. rewrite list_lookup_fmap.
    destruct (itertuples df !! i) as [row|] eqn:Hrow; [|done].
    destruct (itertuples_lookup df i row Hwf Hrow) as [Hlt ->].
    cbn. intros [= <-]. rewrite combine_names_row.
    set (pairs := map (λ c, (col_name c, nth i (col_cells c) CMissing)) df).
    assert (Hfst : pairs.*1 = map col_name df).
    { unfold pairs. rewrite <- list_fmap_compose. done. }
    destruct (of_pairs_keys pairs) as (Hnd & Hsub & Hmem & Heq).
    rewrite Hfst in Hsub, Hmem, Heq.
    split_and!; try done.
    intros Hnames. by rewrite (Heq Hnames).
Qed.

End Serializer.

(** ** Running handlers *)

Section Running.

Lemma bind_returned {A B} (m : M A) (k : A → M B) w a w' :
  m w = (Returned a, w') → bind m k w = k a w'.
Proof. unfold bind. by intros ->. Qed.

Lemma bind_raised {A B} (m : M A) (k : A → M B) w e w' :
  m w = (Raised e, w') → bind m k w = (Raised e, w').
Proof. unfold bind. by intros ->. Qed.

Lemma try_except_returned {A} (body : M A) handler w a w' :
  body w = (Returned a, w') → try_except body handler w = (Returned a, w').
Proof. unfold try_except. by intros ->. Qed.

Lemma try_except_raised {A} (body : M A) handler w e w' :
  body w = (Raised e, w') → try_except body handler w = handler e w'.
Proof. unfold try_except. by intros ->. Qed.

Lemma for_each_cons {A S} (x : A) xs (body : A → S → M S) acc w :
  for_each (x :: xs) body acc w =
    match body x acc w with
    | (Returned acc', w') => for_each xs body acc' w'
    | (Raised e, w') => (Raised e, w')
    end.
Proof. reflexivity. Qed.

Lemma for_each_nil {A S} (body : A → S → M S) acc w :
  for_each [] body acc w = (Returned acc, w).
Proof. reflexivity. Qed.

Lemma log_returns c w : log c w = (Returned tt, logged w [c]).
Proof. reflexivity. Qed.

Lemma logged_logged w cs cs' : logged (logged w cs) cs' = logged w (cs ++ cs').
Proof. unfold logged. cbn. by rewrite <- app_assoc. Qed.

Lemma json_error_PList l :
  json_error (PList l) =
    match l with
    | [] => None
    | x :: l' =>
        match json_error x with
        | Some e => Some e
        | None => json_error (PList l')
        end
    end.
Proof. by destruct l. Qed.


Lemma json_error_strings {A} (f : A → string) (l : list A) :
  json_error (PList (map (λ x, PStr (f x)) l)) = None.
Proof.
  induction l as [|x l IH]; [done|].
  cbn [map]. by rewrite json_error_PList.
Qed.

(** The response of [/generate-plots/], made of strings only, is always
    built. *)
Lemma json_response_plots (paths : list string) w :
  json_response (PDict [
    ("message", PStr "Plots generated successfully");
    ("plots", PList (map (λ path, PStr (plot_url path)) paths));
    ("download_all", PStr "http://127.0.0.1:8000/download-all-plots/")]) w
  = (Returned (JSONResponse (PDict [
       ("message", PStr "Plots generated successfully");
       ("plots", PList (map (λ path, PStr (plot_url path)) paths));
       ("download_all", PStr "http://127.0.0.1:8000/download-all-plots/")])), w).
Proof.
  unfold json_response.
  change (json_error (PDict [
    ("message", PStr "Plots generated successfully");
    ("plots", PList (map (λ path, PStr (plot_url path)) paths));
    ("download_all", PStr "http://127.0.0.1:8000/download-all-plots/")]))
    with (match json_error (PList (map (λ path, PStr (plot_url path)) paths)) with
          | Some e => Some e
          | None => None
          end).
  by rewrite json_error_strings.
Qed.

#[export] Instance same_scatter_calls_preorder : PreOrder same_scatter_calls.
Proof.
  split.
  - intros w. by unfold same_scatter_calls.
  - intros w1 w2 w3 H12 H23. unfold same_scatter_calls in *. congruence.
Qed.

#[export] Instance keeps_store_preorder : PreOrder keeps_store.
Proof.
  split.
  - by intros w Hok.
  - intros w1 w2 w3 H12 H23 Hok. by apply H23, H12.
Qed.

Context (R : relation world) `{!PreOrder R}.

Lemma respects_ret {A} (a : A) : respects R (ret a).
Proof. by intros w o w' [= <- <-]. Qed.

Lemma respects_raise {A} e : respects R (@raise A e).
Proof. by intros w o w' [= <- <-]. Qed.

Lemma respects_json_response content : respects R (json_response content).
Proof.
  unfold json_response. destruct (json_error content).
  - apply respects_raise.
  - apply respects_ret.
Qed.

Lemma respects_lift {A} (x : outcome A) : respects R (lift x).
Proof. by intros w o w' [= <- <-]. Qed.

Lemma respects_get_world : respects R get_world.
Proof. by intros w o w' [= <- <-]. Qed.

Lemma respects_bind {A B} (m : M A) (k : A → M B) :
  respects R m → (∀ a, respects R (k a)) → respects R (bind m k).
Proof.
  intros Hm Hk w o w'. unfold bind.
  destruct (m w) as [[a|e] w1] eqn:Hmw.
  - intros Hkw. transitivity w1; [by eapply Hm|by eapply Hk].
  - intros [= <- <-]. by eapply Hm.
Qed.

Lemma respects_try_except {A} (body : M A) handler :
  respects R body → (∀ e, respects R (handler e)) →
  respects R (try_except body handler).
Proof.
  intros Hbody Hhandler w o w'. unfold try_except.
  destruct (body w) as [[a|e] w1] eqn:Hbw.
  - intros [= <- <-]. by eapply Hbody.
  - intros Hhw. transitivity w1; [by eapply Hbody|by eapply Hhandler].
Qed.

Lemma respects_for_each {A S} (xs : list A) (body : A → S → M S) acc :
  (∀ x acc, respects R (body x acc)) → respects R (for_each xs body acc).
Proof.
  intros Hbody. revert acc. induction xs as [|x xs IH]; intros acc.
  - apply respects_ret.
  - cbn [for_each]. apply respects_bind; [apply Hbody|apply IH].
Qed.

(** A computation that leaves the world as it is respects everything. *)
Lemma respects_unchanged {A} (m : M A) :
  (∀ w, (m w).2 = w) → respects R m.
Proof.
  intros Hm w o w' Hmw. specialize (Hm w). rewrite Hmw in Hm. cbn in Hm.
  by subst w'.
Qed.

Lemma listdir_unchanged p w : (listdir p w).2 = w.
Proof.
  unfold listdir. destruct (Os.resolve w p) as [k|]; [|done].
  by destruct (fs w !! k) as [[|d]|].
Qed.

Lemma zf_write_unchanged zf file_path arcname w :
  (zf_write zf file_path arcname w).2 = w.
Proof. unfold zf_write. by destruct (Os.stat w file_path) as [[|d]|]. Qed.

End Running.

(** ** Upload validation *)

Section Validation.
Context {libs : Collaborators}.
Import PyStr.

Lemma substring_all s : String.substring 0 (String.length s) s = s.
Proof. induction s as [|c s IH]; cbn; [done|]. by rewrite IH. Qed.

Lemma substring_skip pre s n :
  String.substring (String.length pre) n (pre +:+ s) = String.substring 0 n s.
Proof. induction pre as [|c pre IH]; [done|]. cbn. apply IH. Qed.

Lemma substring_split s n m :
  (n + m = String.length s)%nat →
  s = String.substring 0 n s +:+ String.substring n m s.
Proof.
  revert n. induction s as [|c s IH]; intros n Hlen; cbn in Hlen.
  - assert (n = 0%nat) as -> by lia. assert (m = 0%nat) as -> by lia. done.
  - destruct n as [|n].
    + cbn in Hlen. subst m. cbn. by rewrite substring_all.
    + cbn [String.substring].
      change (String c ?x +:+ ?y) with (String c (x +:+ y)).
      f_equal. apply IH. lia.
Qed.

(** [endswith] decides that [suffix] ends [s]. *)
Lemma endswith_spec s suffix :
  endswith s suffix = true ↔ ∃ pre, s = pre +:+ suffix.
Proof.
  unfold endswith. rewrite andb_true_iff, Nat.leb_le, String.eqb_eq. split.
  - intros [Hle Hsub].
    exists (String.substring 0 (String.length s - String.length suffix) s).
    pose proof (substring_split s
      (String.length s - String.length suffix) (String.length suffix)) as Hs.
    rewrite Hsub in Hs. apply Hs. lia.
  - intros [pre ->]. rewrite length_app_string. split; [lia|].
    replace (String.length pre + String.length suffix - String.length suffix)%nat
      with (String.length pre) by lia.
    rewrite substring_skip. apply substring_all.
Qed.

Lemma validate_extension_rejects upload w :
  (∀ name, filename upload = Some name →
           endswith_any name [".xls"; ".xlsx"] = false) →
  ∃ e, validate_extension upload w = (Raised e, w).
Proof.
  intros Hext. unfold validate_extension.
  destruct (filename upload) as [name|]; [|by eexists].
  rewrite (Hext name eq_refl). by eexists.
Qed.

Lemma validate_extension_accepts upload w name :
  filename upload = Some name →
  endswith_any name [".xls"; ".xlsx"] = true →
  validate_extension upload w = (Returned tt, w).
Proof. intros Hname Hext. unfold validate_extension. by rewrite Hname, Hext. Qed.

(** C8. An upload whose file name ends neither in [.xls] nor in [.xlsx]
    ([data.csv], say, or no name at all) is answered with status 400 by
    both [POST /upload/] and [POST /generate-plots/], and the world is left
    as it was: no call to the spreadsheet parser is made, nothing is
    plotted, no file is written.  This holds whatever the parser would have
    done with the content. *)
Theorem invalid_extension_rejected (upload : UploadFile) (w : world) :
  (∀ name, filename upload = Some name →
           endswith_any name [".xls"; ".xlsx"] = false) →
  (∃ detail,
     serve (upload_file upload) w =
       (Response 400 "application/json" None
          (BodyJSON (PDict [("detail", PStr detail)])), w)) ∧
  (∃ detail,
     serve (generate_all_plots upload) w =
       (Response 400 "application/json" None
          (BodyJSON (PDict [("detail", PStr detail)])), w)) ∧
  calls (serve (upload_file upload) w).2 = calls w ∧
  calls (serve (generate_all_plots upload) w).2 = calls w.
Proof.
  intros Hext.
  destruct (validate_extension_rejects upload w Hext) as [e He].
  assert (Hup : upload_file upload w =
    (Raised (HTTPException 400
       ("An error occurred while processing the file: " +:+ str_of e)), w)).
  { unfold upload_file, upload_file_body.
    erewrite try_except_raised; [done|]. by apply bind_raised. }
  assert (Hgen : generate_all_plots upload w =
    (Raised (HTTPException 400
       ("An error occurred while creating plots: " +:+ str_of e)), w)).
  { unfold generate_all_plots, generate_all_plots_body.
    erewrite try_except_raised; [done|]. by apply bind_raised. }
  unfold serve. rewrite Hup, Hgen. cbn. split_and!; by eauto.
Qed.

End Validation.

(** ** The plot sweep *)

(** Decide the comparisons of string literals in the goal. *)
Ltac eval_eqb :=
  repeat match goal with
  | |- context [String.eqb ?a ?b] =>
      let v := eval vm_compute in (String.eqb a b) in
      match v with
      | true => change (String.eqb a b) with true
      | false => change (String.eqb a b) with false
      end
  end;
  cbn match.

Section Sweep.
Context {libs : Collaborators}.
Import PyStr OsPath.

Lemma numeric_columns_map_cells f df :
  numeric_columns (map_cells f df) = numeric_columns df.
Proof.
  unfold numeric_columns, map_cells.
  induction df as [|c df IH]; [done|]. cbn [map List.filter].
  replace (is_numeric (Column (col_name c) (col_kind c) (map f (col_cells c))))
    with (is_numeric c) by done.
  destruct (is_numeric c); cbn [map col_name]; by rewrite IH.
Qed.

Lemma numeric_columns_normalize df :
  numeric_columns (replace_inf (fillna df)) = numeric_columns df.
Proof. unfold replace_inf, fillna. by rewrite !numeric_columns_map_cells. Qed.

Lemma pd_read_excel_returns content df w :
  read_excel content = Returned df →
  pd_read_excel content w = (Returned df, logged w [CallReadExcel content]).
Proof. intros Hread. unfold pd_read_excel, bind, log, lift. cbn. by rewrite Hread. Qed.

(** C3. When the uploaded table has no numeric column, the sweep is not
    entered: the body of [/generate-plots/] raises the error "No numeric
    columns found to plot." with status 400, the endpoint answers 400, and
    the only thing that happened is the call to the parser - the file tree,
    and so the artifact store, is the one before the request, and nothing
    was plotted or saved. *)
Theorem no_numeric_columns_rejected (upload : UploadFile) (w : world)
    (name : string) (df : Table) :
  filename upload = Some name →
  endswith_any name [".xls"; ".xlsx"] = true →
  read_excel (file upload) = Returned df →
  numeric_columns df = [] →
  let w' := logged w [CallReadExcel (file upload)] in
  generate_all_plots_body upload w =
    (Raised (HTTPException 400 "No numeric columns found to plot."), w') ∧
  (∃ detail,
     serve (generate_all_plots upload) w =
       (Response 400 "application/json" None
          (BodyJSON (PDict [("detail", PStr detail)])), w')) ∧
  fs w' = fs w ∧
  (∀ n, artifact w' n = artifact w n) ∧
  List.filter plotting_call (calls w') = List.filter plotting_call (calls w).
Proof.
  intros Hname Hext Hread Hnum w'.
  assert (Hbody : generate_all_plots_body upload w =
    (Raised (HTTPException 400 "No numeric columns found to plot."), w')).
  { unfold generate_all_plots_body.
    erewrite bind_returned by by eapply validate_extension_accepts.
    erewrite bind_returned by by apply pd_read_excel_returns.
    by rewrite numeric_columns_normalize, Hnum. }
  split_and!.
  - done.
  - unfold serve, generate_all_plots.
    erewrite try_except_raised by exact Hbody. cbn. by eexists.
  - done.
  - done.
  - subst w'. cbn. rewrite List.filter_app. cbn. by rewrite app_nil_r.
Qed.

Lemma plot_returns df req png w :
  render df req = Returned png →
  plot df req w = (Returned png, logged w [CallPlot req]).
Proof. intros Hr. unfold plot, bind, log, lift. cbn. by rewrite Hr. Qed.

Lemma save_plot_returns column plot_type png plot_paths req w :
  store_ok w → slash_free column = true → slash_free plot_type = true →
  save_plot column plot_type png plot_paths (logged w [CallPlot req]) =
    (Returned (plot_paths ++ [join PLOT_DIR (artifact_name column plot_type)]),
     figure_saved w (req, artifact_name column plot_type, png)).
Proof.
  intros Hok Hc Ht. unfold save_plot. fold (artifact_name column plot_type).
  pose proof (artifact_name_ok column plot_type Hc Ht) as Hname.
  erewrite bind_returned by apply log_returns.
  rewrite logged_logged. cbn [app].
  erewrite bind_returned; [done|].
  apply write_in_store; [|done]. by apply logged_ok.
Qed.

Lemma figure_saved_ok w req n png :
  store_ok w → Os.entry_name n = true → store_ok (figure_saved w (req, n, png)).
Proof.
  intros Hok Hname. unfold figure_saved. cbn.
  apply with_artifact_ok; [|done]. by apply logged_ok.
Qed.

(** One turn of the inner loop, for a plot type that is not skipped. *)
Lemma plot_one_line df cols column paths png w :
  store_ok w → slash_free column = true →
  render df (SeriesPlot column "line" ("Line Plot for " +:+ column) None)
    = Returned png →
  plot_one df cols column "line" paths w =
    (Returned (paths ++ [join PLOT_DIR (artifact_name column "line")]),
     figure_saved w (SeriesPlot column "line" ("Line Plot for " +:+ column) None,
                     artifact_name column "line", png)).
Proof.
  intros Hok Hc Hr. unfold plot_one. eval_eqb.
  erewrite bind_returned by by apply plot_returns.
  by apply save_plot_returns.
Qed.

Lemma plot_one_bar df cols column paths png w :
  store_ok w → slash_free column = true →
  render df (SeriesPlot column "bar" ("Bar Plot for " +:+ column) None)
    = Returned png →
  plot_one df cols column "bar" paths w =
    (Returned (paths ++ [join PLOT_DIR (artifact_name column "bar")]),
     figure_saved w (SeriesPlot column "bar" ("Bar Plot for " +:+ column) None,
                     artifact_name column "bar", png)).
Proof.
  intros Hok Hc Hr. unfold plot_one. eval_eqb.
  erewrite bind_returned by by apply plot_returns.
  by apply save_plot_returns.
Qed.

Lemma plot_one_hist df cols column paths png w :
  store_ok w → slash_free column = true →
  render df (SeriesPlot column "hist" ("Histogram for " +:+ column) (Some 10%Z))
    = Returned png →
  plot_one df cols column "hist" paths w =
    (Returned (paths ++ [join PLOT_DIR (artifact_name column "hist")]),
     figure_saved w (SeriesPlot column "hist" ("Histogram for " +:+ column) (Some 10%Z),
                     artifact_name column "hist", png)).
Proof.
  intros Hok Hc Hr. unfold plot_one. eval_eqb.
  erewrite bind_returned by by apply plot_returns.
  by apply save_plot_returns.
Qed.

Lemma plot_one_scatter df x y cols column paths png w :
  store_ok w → slash_free column = true →
  render df (ScatterPlot x column ("Scatter Plot for " +:+ column)) = Returned png →
  plot_one df (x :: y :: cols) column "scatter" paths w =
    (Returned (paths ++ [join PLOT_DIR (artifact_name column "scatter")]),
     figure_saved w (ScatterPlot x column ("Scatter Plot for " +:+ column),
                     artifact_name column "scatter", png)).
Proof.
  intros Hok Hc Hr. unfold plot_one. eval_eqb.
  change (length (x :: y :: cols) <? 2)%nat with false. cbn match.
  erewrite bind_returned by by apply plot_returns.
  by apply save_plot_returns.
Qed.

(** With a single numeric column the scatter turn does nothing at all. *)
Lemma plot_one_scatter_skipped df c column paths w :
  plot_one df [c] column "scatter" paths w = (Returned paths, w).
Proof. reflexivity. Qed.

(** *** What the sweep leaves in the store *)

Lemma artifact_with_artifact w n' data n :
  artifact (with_artifact w n' data) n =
    if decide (n = n') then Some data else artifact w n.
Proof.
  unfold artifact. cbn [with_artifact fs].
  change (store_key (with_artifact w n' data) n) with (store_key w n).
  destruct (decide (n = n')) as [->|Hne].
  - by rewrite lookup_insert_eq.
  - rewrite lookup_insert_ne; [done|].
    intros Heq. apply Hne. symmetry. by apply (store_key_inj w).
Qed.

Lemma artifact_figure_saved w req n' png n :
  artifact (figure_saved w (req, n', png)) n =
    if decide (n = n') then Some png else artifact w n.
Proof. unfold figure_saved. cbn [fst snd]. by rewrite artifact_with_artifact. Qed.

Lemma calls_figure_saved w req n png :
  calls (figure_saved w (req, n, png)) =
    calls w ++ [CallPlot req; CallSavefig (join PLOT_DIR n)].
Proof. reflexivity. Qed.

Lemma string_app_inv_head a x y : a +:+ x = a +:+ y → x = y.
Proof.
  induction a as [|c a IH]; [done|].
  change (String c a +:+ ?z) with (String c (a +:+ z)).
  intros [= Heq]. by apply IH.
Qed.

Lemma artifact_name_inv column t t' :
  artifact_name column t = artifact_name column t' →
  t +:+ ".png" = t' +:+ ".png".
Proof.
  unfold artifact_name. intros Heq%string_app_inv_head.
  by apply (string_app_inv_head "_").
Qed.

(** *** Calls made whatever the libraries answer *)

Lemma same_scatter_log c :
  scatter_call c = false → respects same_scatter_calls (log c).
Proof.
  intros Hc w o w' [= <- <-]. unfold same_scatter_calls. cbn.
  rewrite List.filter_app. cbn. by rewrite Hc, app_nil_r.
Qed.

Lemma write_file_calls p data w : calls (write_file p data w).2 = calls w.
Proof.
  unfold write_file.
  destruct (Os.resolve w p) as [k|]; [|done].
  by destruct (fs w !! k) as [[|d]|];
    destruct (Os.entry_name (List.last (split_slash p) "")).
Qed.

Lemma same_scatter_write_file p data :
  respects same_scatter_calls (write_file p data).
Proof.
  intros w o w' Hw. unfold same_scatter_calls.
  pose proof (write_file_calls p data w) as Hcalls.
  rewrite Hw in Hcalls. cbn in Hcalls. by rewrite Hcalls.
Qed.

Lemma same_scatter_save_plot column plot_type png paths :
  respects same_scatter_calls (save_plot column plot_type png paths).
Proof.
  unfold save_plot.
  apply (respects_bind same_scatter_calls); [by apply same_scatter_log|]. intros _.
  apply (respects_bind same_scatter_calls); [apply same_scatter_write_file|]. intros _.
  apply (respects_ret same_scatter_calls).
Qed.

Lemma same_scatter_plot df req :
  scatter_call (CallPlot req) = false →
  respects same_scatter_calls (plot df req).
Proof.
  intros Hreq. unfold plot.
  apply (respects_bind same_scatter_calls); [by apply same_scatter_log|]. intros _.
  apply (respects_lift same_scatter_calls).
Qed.

(** With one numeric column no turn of the inner loop, whatever the plot
    type, asks for a scatter plot. *)
Lemma same_scatter_plot_one df c column plot_type paths :
  respects same_scatter_calls (plot_one df [c] column plot_type paths).
Proof.
  unfold plot_one. change (length [c] <? 2)%nat with true. cbn match.
  repeat match goal with
  | |- respects _ (if ?b then _ else _) => destruct b
  | |- respects _ (bind _ _) =>
      apply (respects_bind same_scatter_calls); [by apply same_scatter_plot|intros ?]
  | |- respects _ (save_plot _ _ _ _) => apply same_scatter_save_plot
  | |- respects _ (ret _) => apply (respects_ret same_scatter_calls)
  end.
Qed.

Lemma generate_all_plots_returns upload w name df plot_paths w' :
  filename upload = Some name →
  endswith_any name [".xls"; ".xlsx"] = true →
  read_excel (file upload) = Returned df →
  numeric_columns df ≠ [] →
  plot_sweep (normalize df) (numeric_columns df)
    (logged w [CallReadExcel (file upload)]) = (Returned plot_paths, w') →
  generate_all_plots upload w =
    (Returned (JSONResponse (PDict [
       ("message", PStr "Plots generated successfully");
       ("plots", PList (map (λ path, PStr (plot_url path)) plot_paths));
       ("download_all", PStr "http://127.0.0.1:8000/download-all-plots/")])),
     w').
Proof.
  intros Hname Hext Hread Hnum Hsweep.
  unfold generate_all_plots. apply try_except_returned.
  unfold generate_all_plots_body.
  erewrite bind_returned by by eapply validate_extension_accepts.
  erewrite bind_returned by by apply pd_read_excel_returns.
  rewrite numeric_columns_normalize.
  rewrite bool_decide_eq_false_2 by done.
  fold (normalize df). erewrite bind_returned by exact Hsweep.
  apply json_response_plots.
Qed.

Ltac solve_store_ok :=
  repeat first
    [ assumption
    | apply logged_ok
    | apply figure_saved_ok;
      [|first [reflexivity | by apply artifact_name_ok]] ].

Ltac sweep_turn lem :=
  rewrite for_each_cons;
  erewrite lem; [cbn match|solve_store_ok|first [reflexivity|assumption]|eauto].

(** C4, as the code has it.  With exactly one numeric column [c], the sweep never asks the
    plotting library for a scatter plot, whatever the libraries answer.
    When plotting and saving succeed (the store is in place, [c] can be
    part of a file name, and the line, bar and histogram figures render -
    nothing is asked of the scatter figure), the sweep returns without
    error exactly the three paths of [c_line.png], [c_bar.png] and
    [c_hist.png], in this order; the store then holds these three
    artifacts, every other name, [c_scatter.png] included, is as it was,
    and the calls made are the three plots, each followed by its save. *)
Theorem single_numeric_column_sweep (df : Table) (c : string) (w : world) :
  numeric_columns df = [c] →
  (∀ o w', plot_sweep df (numeric_columns df) w = (o, w') →
     List.filter scatter_call (calls w') = List.filter scatter_call (calls w)) ∧
  (∀ png_line png_bar png_hist,
     slash_free c = true →
     store_ok w →
     render df (SeriesPlot c "line" ("Line Plot for " +:+ c) None)
       = Returned png_line →
     render df (SeriesPlot c "bar" ("Bar Plot for " +:+ c) None)
       = Returned png_bar →
     render df (SeriesPlot c "hist" ("Histogram for " +:+ c) (Some 10%Z))
       = Returned png_hist →
     let w' := figures_saved w
       [ (SeriesPlot c "line" ("Line Plot for " +:+ c) None,
          artifact_name c "line", png_line);
         (SeriesPlot c "bar" ("Bar Plot for " +:+ c) None,
          artifact_name c "bar", png_bar);
         (SeriesPlot c "hist" ("Histogram for " +:+ c) (Some 10%Z),
          artifact_name c "hist", png_hist) ] in
     plot_sweep df (numeric_columns df) w =
       (Returned [ join PLOT_DIR (artifact_name c "line");
                   join PLOT_DIR (artifact_name c "bar");
                   join PLOT_DIR (artifact_name c "hist") ], w') ∧
     artifact w' (artifact_name c "line") = Some png_line ∧
     artifact w' (artifact_name c "bar") = Some png_bar ∧
     artifact w' (artifact_name c "hist") = Some png_hist ∧
     artifact w' (artifact_name c "scatter") = artifact w (artifact_name c "scatter") ∧
     (∀ n, n ≠ artifact_name c "line" → n ≠ artifact_name c "bar" →
           n ≠ artifact_name c "hist" → artifact w' n = artifact w n) ∧
     calls w' = calls w ++
       [ CallPlot (SeriesPlot c "line" ("Line Plot for " +:+ c) None);
         CallSavefig (join PLOT_DIR (artifact_name c "line"));
         CallPlot (SeriesPlot c "bar" ("Bar Plot for " +:+ c) None);
         CallSavefig (join PLOT_DIR (artifact_name c "bar"));
         CallPlot (SeriesPlot c "hist" ("Histogram for " +:+ c) (Some 10%Z));
         CallSavefig (join PLOT_DIR (artifact_name c "hist")) ]).
Proof.
  intros Hnum. rewrite Hnum. split.
  - apply (respects_for_each same_scatter_calls). intros column acc.
    apply (respects_for_each same_scatter_calls). intros plot_type paths.
    apply same_scatter_plot_one.
  - intros png_line png_bar png_hist Hc Hok Hline Hbar Hhist w'.
    assert (Hother : ∀ n, n ≠ artifact_name c "line" → n ≠ artifact_name c "bar" →
              n ≠ artifact_name c "hist" → artifact w' n = artifact w n).
    { intros n Hl Hb Hh. subst w'. unfold figures_saved. cbn [fold_left].
      rewrite !artifact_figure_saved.
      by rewrite !decide_False by done. }
    split_and!.
    + unfold plot_sweep. rewrite for_each_cons.
      unfold plot_types.
      sweep_turn plot_one_line.
      sweep_turn plot_one_bar.
      rewrite for_each_cons, plot_one_scatter_skipped.
      sweep_turn plot_one_hist.
      reflexivity.
    + subst w'. unfold figures_saved. cbn [fold_left].
      rewrite !artifact_figure_saved.
      rewrite !decide_False by (by intros ?%artifact_name_inv).
      by rewrite decide_True.
    + subst w'. unfold figures_saved. cbn [fold_left].
      rewrite !artifact_figure_saved.
      rewrite decide_False by (by intros ?%artifact_name_inv).
      by rewrite decide_True.
    + subst w'. unfold figures_saved. cbn [fold_left].
      rewrite !artifact_figure_saved. by rewrite decide_True.
    + apply Hother; by intros ?%artifact_name_inv.
    + exact Hother.
    + subst w'. unfold figures_saved. cbn [fold_left].
      rewrite !calls_figure_saved. by rewrite <- !app_assoc.
Qed.

(** C1. For the table [A=[1,2,3]], [B=[4,5,6]] uploaded under an Excel
    file name, with the store in place and a plotting library that renders
    every figure, the sweep of [/generate-plots/] saves exactly eight
    artifacts, in the order [A_line.png], [A_bar.png], [A_scatter.png],
    [A_hist.png], [B_line.png], [B_bar.png], [B_scatter.png], [B_hist.png]
    - the names [{column}_{kind}.png] for the columns in table order and the
    kinds in the order line, bar, scatter, hist - and the response, with
    status 200, lists the download URLs of exactly these names in this
    order.  Every other name in the store is as it was. *)
Theorem two_numeric_columns_sweep (upload : UploadFile) (w : world)
    (name : string) (png : plot_request → bytes) :
  filename upload = Some name →
  endswith_any name [".xls"; ".xlsx"] = true →
  read_excel (file upload) = Returned Demo.tAB →
  (∀ req, render Demo.tAB req = Returned (png req)) →
  store_ok w →
  let names :=
    [ "A_line.png"; "A_bar.png"; "A_scatter.png"; "A_hist.png";
      "B_line.png"; "B_bar.png"; "B_scatter.png"; "B_hist.png" ] in
  let requests :=
    [ SeriesPlot "A" "line" "Line Plot for A" None;
      SeriesPlot "A" "bar" "Bar Plot for A" None;
      ScatterPlot "A" "A" "Scatter Plot for A";
      SeriesPlot "A" "hist" "Histogram for A" (Some 10%Z);
      SeriesPlot "B" "line" "Line Plot for B" None;
      SeriesPlot "B" "bar" "Bar Plot for B" None;
      ScatterPlot "A" "B" "Scatter Plot for B";
      SeriesPlot "B" "hist" "Histogram for B" (Some 10%Z) ] in
  let w1 := logged w [CallReadExcel (file upload)] in
  let w' :=
    figures_saved w1
      (zip_with (λ req n, (req, n, png req)) requests names) in
  names = flat_map (λ column, map (artifact_name column) plot_types) ["A"; "B"] ∧
  plot_sweep (normalize Demo.tAB) (numeric_columns (normalize Demo.tAB)) w1 =
    (Returned (map (join PLOT_DIR) names), w') ∧
  generate_all_plots upload w =
    (Returned (JSONResponse (PDict [
       ("message", PStr "Plots generated successfully");
       ("plots",
        PList (map (λ n, PStr ("http://127.0.0.1:8000/download-plot/?plot_name=" +:+ n))
                   names));
       ("download_all", PStr "http://127.0.0.1:8000/download-all-plots/")])),
     w') ∧
  status (serve (generate_all_plots upload) w).1 = 200%Z ∧
  (∀ i n req, names !! i = Some n → requests !! i = Some req →
              artifact w' n = Some (png req)) ∧
  (∀ n, n ∉ names → artifact w' n = artifact w n) ∧
  List.filter plotting_call (calls w') =
    List.filter plotting_call (calls w) ++
    concat (zip_with (λ req n, [CallPlot req; CallSavefig (join PLOT_DIR n)])
                     requests names).
Proof.
  intros Hname Hext Hread Hrender Hok names requests w1 w'.
  assert (Hsweep :
    plot_sweep (normalize Demo.tAB) (numeric_columns (normalize Demo.tAB)) w1 =
      (Returned (map (join PLOT_DIR) names), w')).
  { change (normalize Demo.tAB) with Demo.tAB.
    change (numeric_columns Demo.tAB) with ["A"; "B"].
    unfold plot_sweep, plot_types.
    rewrite for_each_cons.
    sweep_turn plot_one_line.
    sweep_turn plot_one_bar.
    sweep_turn plot_one_scatter.
    sweep_turn plot_one_hist.
    rewrite for_each_nil. cbn match.
    rewrite for_each_cons.
    sweep_turn plot_one_line.
    sweep_turn plot_one_bar.
    sweep_turn plot_one_scatter.
    sweep_turn plot_one_hist.
    reflexivity. }
  assert (Hgen : generate_all_plots upload w =
    (Returned (JSONResponse (PDict [
       ("message", PStr "Plots generated successfully");
       ("plots",
        PList (map (λ n, PStr ("http://127.0.0.1:8000/download-plot/?plot_name=" +:+ n))
                   names));
       ("download_all", PStr "http://127.0.0.1:8000/download-all-plots/")])),
     w')).
  { by rewrite (generate_all_plots_returns upload w name Demo.tAB _ w'
                  Hname Hext Hread ltac:(done) Hsweep). }
  split_and!.
  - reflexivity.
  - exact Hsweep.
  - exact Hgen.
  - unfold serve. by rewrite Hgen.
  - intros i n req Hn Hreq. subst w'. unfold figures_saved.
    cbn [zip_with requests names fold_left].
    rewrite !artifact_figure_saved.
    do 8 (destruct i as [|i];
          [ cbn in Hn, Hreq; injection Hn as <-; injection Hreq as <-;
            by repeat (case_decide; [try done|]) | ]).
    subst names. by cbn in Hn.
  - intros n Hn. subst w'. unfold figures_saved.
    cbn [zip_with requests names fold_left].
    rewrite !artifact_figure_saved.
    assert (Hne : ∀ m, m ∈ names → n ≠ m) by (by intros m Hm ->).
    by rewrite !decide_False by (apply Hne, list_elem_of_In; cbn; tauto).
  - subst w'. unfold figures_saved.
    cbn [zip_with requests names fold_left].
    rewrite !calls_figure_saved. subst w1. cbn [logged calls].
    rewrite !List.filter_app. cbn. by rewrite <- !app_assoc.
Qed.

End Sweep.

(** ** Downloads *)

Section Downloads.
Context {libs : Collaborators}.
Import PyStr OsPath.

Lemma listdir_store w :
  store_ok w →
  listdir PLOT_DIR w = (Returned (Os.children (fs w) (cwd w ++ [PLOT_DIR])), w).
Proof.
  intros [Hcwd Hplots _ _]. unfold listdir, Os.resolve.
  change (String.eqb PLOT_DIR "") with false.
  change (startswith PLOT_DIR "/") with false.
  change (split_slash PLOT_DIR) with [PLOT_DIR].
  cbn [Os.walk]. rewrite Hcwd.
  change (String.eqb PLOT_DIR "" || String.eqb PLOT_DIR ".") with false.
  change (String.eqb PLOT_DIR "..") with false.
  cbn match. by rewrite Hplots.
Qed.

Lemma zf_write_artifact zf n data w :
  store_ok w → artifact w n = Some data →
  zf_write zf (join PLOT_DIR n) n w = (Returned (zf ++ [(n, data)]), w).
Proof.
  intros Hok Hart. unfold zf_write. by rewrite (stat_artifact w n data Hok Hart).
Qed.

Lemma archive_entries names zf w :
  store_ok w →
  (∀ n, n ∈ names → is_Some (artifact w n)) →
  for_each names
    (λ filename zf, zf_write zf (join PLOT_DIR filename) filename) zf w
  = (Returned (zf ++ map (λ n, (n, default [] (artifact w n))) names), w).
Proof.
  intros Hok. revert zf. induction names as [|n names IH]; intros zf Hall.
  - cbn. by rewrite app_nil_r.
  - destruct (Hall n) as [data Hdata]; [apply elem_of_cons; by left|].
    rewrite for_each_cons, (zf_write_artifact zf n data w Hok Hdata).
    cbn match. rewrite IH.
    + cbn [map]. rewrite Hdata. cbn. by rewrite <- app_assoc.
    + intros n' Hn'. apply Hall. apply elem_of_cons. by right.
Qed.

Lemma store_entry_artifact w n :
  store_ok w → is_Some (fs w !! store_key w n) ↔ is_Some (artifact w n).
Proof.
  intros Hok. unfold artifact.
  pose proof (store_flat w Hok n) as Hflat.
  destruct (fs w !! store_key w n) as [[|data]|]; split; intros [x Hx]; try done; eauto.
Qed.

(** C6. Whenever the store is in place - [PLOT_DIR] exists and is a flat
    directory of files, whichever requests put them there - [archive_all]
    succeeds without touching the world, and the archive it builds has one
    member per file of the directory and no other: the member names are
    the names [os.listdir] returned, without repetition, a name is a member
    exactly when a file of that name is in the directory, and each member
    carries that file's name and content. *)
Theorem archive_all_members (w : world) :
  store_ok w →
  ∃ zf,
    archive_all w = (Returned zf, w) ∧
    listdir PLOT_DIR w = (Returned (namelist zf), w) ∧
    NoDup (namelist zf) ∧
    (∀ n, n ∈ namelist zf ↔ is_Some (fs w !! store_key w n)) ∧
    (∀ n, n ∈ namelist zf ↔ is_Some (artifact w n)) ∧
    (∀ n data, (n, data) ∈ zf ↔ artifact w n = Some data).
Proof.
  intros Hok.
  set (names := Os.children (fs w) (cwd w ++ [PLOT_DIR])).
  assert (Hnames : ∀ n, n ∈ names ↔ is_Some (fs w !! store_key w n)).
  { intros n. unfold names. by rewrite elem_of_children, store_key_app. }
  exists (map (λ n, (n, default [] (artifact w n))) names).
  assert (Hlist : namelist (map (λ n, (n, default [] (artifact w n))) names) = names).
  { unfold namelist. rewrite map_map. cbn. apply map_id. }
  rewrite Hlist. split_and!.
  - unfold archive_all.
    erewrite bind_returned by by apply listdir_store.
    fold names. rewrite archive_entries; [done..|].
    intros n Hn. by apply store_entry_artifact, Hnames.
  - by apply listdir_store.
  - apply NoDup_children.
  - exact Hnames.
  - intros n. by rewrite Hnames, store_entry_artifact.
  - intros n data. rewrite list_elem_of_fmap. split.
    + intros (n' & [= -> ->] & Hn').
      apply Hnames, store_entry_artifact in Hn' as [d Hd]; [|done].
      by rewrite Hd.
    + intros Hart. exists n. split.
      * by rewrite Hart.
      * apply Hnames, store_entry_artifact; [done|]. by rewrite Hart.
Qed.

(** What [GET /download-all-plots/] does with the archive: the handler
    returns normally, handing the in-memory buffer to [FileResponse] as if
    it were a path; sending that response fails in the framework, so the
    client gets 500 "Internal Server Error" and never the archive.  When
    the archive cannot be built the handler raises its own 500 with a JSON
    detail.  Either way the status is 500. *)
Lemma download_all_plots_status (w : world) :
  status (serve download_all_plots w).1 = 500%Z ∧
  (∀ zf w', archive_all w = (Returned zf, w') →
     download_all_plots w =
       (Returned (FileResponse (BytesIO zf) "application/zip" "all_plots.zip"), w') ∧
     (serve download_all_plots w).1 = internal_server_error) ∧
  (∀ e w', archive_all w = (Raised e, w') →
     (serve download_all_plots w).1 =
       Response 500 "application/json" None
         (BodyJSON (PDict [("detail",
            PStr ("An error occurred while creating the zip file: " +:+ str_of e))]))).
Proof.
  unfold serve, download_all_plots, try_except, bind.
  destruct (archive_all w) as [[zf|e] w'] eqn:Harch; cbn.
  - split_and!; [done| |done]. by intros zf' w'' [= <- <-].
  - split_and!; [done|done|]. by intros e' w'' [= <- <-].
Qed.

Lemma download_plot_found w plot_name :
  Os.path_exists w (join PLOT_DIR plot_name) = true →
  download_plot plot_name w =
    (Returned (FileResponse (PathStr (join PLOT_DIR plot_name)) "image/png" plot_name), w).
Proof. intros Hex. unfold download_plot, bind, get_world. by rewrite Hex. Qed.

Lemma download_plot_missing w plot_name :
  Os.path_exists w (join PLOT_DIR plot_name) = false →
  download_plot plot_name w = (Raised (HTTPException 404 "Plot not found"), w).
Proof. intros Hex. unfold download_plot, bind, get_world. by rewrite Hex. Qed.

Lemma path_exists_stat w p x : Os.stat w p = Some x → Os.path_exists w p = true.
Proof. intros Hx. unfold Os.path_exists. apply bool_decide_eq_true_2. by rewrite Hx. Qed.

Lemma download_plot_serves_file w plot_name data :
  Os.stat w (join PLOT_DIR plot_name) = Some (File data) →
  serve (download_plot plot_name) w =
    (Response 200 "image/png" (Some plot_name) (BodyBytes data), w).
Proof.
  intros Hstat. unfold serve.
  rewrite download_plot_found by by eapply path_exists_stat.
  cbn. by rewrite Hstat.
Qed.

(** C9, as the code has it.  [GET /download-plot/] answers 200 with the
    artifact's bytes as [image/png] when an artifact of that exact name is
    in the store.  It answers 404 with detail "Plot not found" when
    nothing exists at the path [os.path.join(PLOT_DIR, plot_name)], and
    only then: the test is on the joined path, not on the store's
    entries. *)
Theorem download_plot_by_joined_path (w : world) (plot_name : string) :
  store_ok w →
  (∀ data, artifact w plot_name = Some data →
     serve (download_plot plot_name) w =
       (Response 200 "image/png" (Some plot_name) (BodyBytes data), w)) ∧
  (Os.path_exists w (join PLOT_DIR plot_name) = false →
     serve (download_plot plot_name) w =
       (Response 404 "application/json" None
          (BodyJSON (PDict [("detail", PStr "Plot not found")])), w)) ∧
  (status (serve (download_plot plot_name) w).1 = 404%Z ↔
     Os.path_exists w (join PLOT_DIR plot_name) = false).
Proof.
  intros Hok.
  assert (Hmiss : Os.path_exists w (join PLOT_DIR plot_name) = false →
     serve (download_plot plot_name) w =
       (Response 404 "application/json" None
          (BodyJSON (PDict [("detail", PStr "Plot not found")])), w)).
  { intros Hex. unfold serve. by rewrite download_plot_missing. }
  split_and!.
  - intros data Hart. apply download_plot_serves_file. by apply stat_artifact.
  - exact Hmiss.
  - split.
    + destruct (Os.path_exists w (join PLOT_DIR plot_name)) eqn:Hex; [|done].
      unfold serve. rewrite download_plot_found by done. cbn.
      by destruct (Os.stat w (join PLOT_DIR plot_name)) as [[|data]|].
    + intros Hex. by rewrite Hmiss.
Qed.

End Downloads.

(** ** The store stays in place *)

Section Invariant.
Context {libs : Collaborators}.
Import PyStr OsPath.

Lemma split_slash_pieces p c : c ∈ split_slash p → slash_free c = true.
Proof.
  revert c. induction p as [|a p IH]; intros c.
  - by intros ->%list_elem_of_singleton.
  - rewrite split_slash_cons. cbn [slash_free].
    destruct (Ascii.eqb a "/") eqn:Ha.
    + intros [->|Hc]%elem_of_cons; [done|by apply IH].
    + pose proof (split_slash_nonempty p) as Hne.
      destruct (split_slash p) as [|piece rest]; [done|].
      intros [->|Hc]%elem_of_cons.
      * cbn [slash_free]. rewrite Ha. cbn. apply IH. apply elem_of_cons. by left.
      * apply IH. apply elem_of_cons. by right.
Qed.

Lemma removelast_lookup (l : list string) i c :
  removelast l !! i = Some c → l !! i = Some c.
Proof.
  revert i. induction l as [|x l IH]; intros i; [done|].
  destruct l as [|y l]; [by destruct i|].
  change (removelast (x :: y :: l)) with (x :: removelast (y :: l)).
  destruct i as [|i]; [done|]. cbn [lookup list_lookup]. apply IH.
Qed.

Lemma walk_proper tree m cs :
  (∀ c, c ∈ cs → slash_free c = true) →
  ∀ cur k, proper_from m cur → Os.walk tree cur cs = Some k → proper_from m k.
Proof.
  induction cs as [|c cs IH]; intros Hcs cur k Hcur; cbn [Os.walk].
  - by intros [= <-].
  - assert (Hcs' : ∀ c', c' ∈ cs → slash_free c' = true).
    { intros c' Hc'. apply Hcs. apply elem_of_cons. by right. }
    destruct (tree !! cur) as [[|d]|]; [|done..].
    destruct (String.eqb c "" || String.eqb c ".") eqn:Hdot.
    { by apply IH. }
    destruct (String.eqb c "..") eqn:Hdots.
    { apply IH; [done|]. intros i c' Hi. apply Hcur. by apply removelast_lookup. }
    apply IH; [done|]. intros i c' Hi Hm.
    apply lookup_app_Some in Hi as [Hi|[Hlen Hi]]; [by eapply Hcur|].
    apply list_lookup_singleton_Some in Hi as [_ <-].
    apply orb_false_elim in Hdot as [Hempty Hdot].
    unfold Os.entry_name. rewrite Hempty, Hdot, Hdots.
    rewrite Hcs; [done|]. apply elem_of_cons. by left.
Qed.

Lemma resolve_proper w p k :
  Os.resolve w p = Some k → proper_from (length (cwd w)) k.
Proof.
  unfold Os.resolve. destruct (String.eqb p ""); [done|].
  apply walk_proper; [apply split_slash_pieces|].
  destruct (startswith p "/").
  - by intros i c.
  - intros i c Hi%lookup_lt_Some Hm. lia.
Qed.

Lemma store_key_proper w n :
  proper_from (length (cwd w)) (store_key w n) → Os.entry_name n = true.
Proof.
  intros Hproper. apply (Hproper (S (length (cwd w)))); [|lia].
  unfold store_key. rewrite lookup_app_r by lia.
  by replace (S (length (cwd w)) - length (cwd w))%nat with 1%nat by lia.
Qed.

Lemma keeps_store_log c : respects keeps_store (log c).
Proof. intros w o w' [= <- <-] Hok. by apply (logged_ok w [c]). Qed.

(** Wherever a write lands, the store stays a flat directory of files
    with proper names. *)
Lemma keeps_store_write_file p data : respects keeps_store (write_file p data).
Proof.
  intros w o w'. unfold write_file.
  destruct (Os.resolve w p) as [k|] eqn:Hres; [|by intros [= <- <-]].
  assert (Hkeep : fs w !! k ≠ Some Dir →
            keeps_store w (World (cwd w) (<[k := File data]> (fs w)) (calls w))).
  { intros Hk [Hcwd Hplots Hflat Hnames]. split; cbn [fs cwd].
    - rewrite lookup_insert_ne; [done|]. by intros ->.
    - rewrite lookup_insert_ne; [done|]. by intros ->.
    - intros n. unfold store_key. cbn [cwd]. fold (store_key w n).
      destruct (decide (k = store_key w n)) as [->|Hne].
      + by rewrite lookup_insert_eq.
      + rewrite lookup_insert_ne by done. apply Hflat.
    - intros n. unfold store_key. cbn [cwd]. fold (store_key w n).
      destruct (decide (k = store_key w n)) as [->|Hne].
      + intros _. apply (store_key_proper w). by eapply resolve_proper.
      + rewrite lookup_insert_ne by done. apply Hnames. }
  destruct (fs w !! k) as [[|d]|] eqn:Hk;
    destruct (Os.entry_name (List.last (split_slash p) ""));
    intros [= <- <-]; try done; by apply Hkeep.
Qed.

(** Started in a directory that has no [plots] entry yet, the process
    creates the store, empty and in place; started where the store is
    already in place, it leaves the world as it is. *)
Lemma make_plot_dir_store_ok w :
  tree_ok (fs w) →
  fs w !! cwd w = Some Dir →
  (fs w !! (cwd w ++ [PLOT_DIR]) = None →
     ∃ w', make_plot_dir w = (Returned tt, w') ∧ store_ok w' ∧
           ∀ n, artifact w' n = None) ∧
  (store_ok w → make_plot_dir w = (Returned tt, w)).
Proof.
  intros Htree Hcwd.
  assert (Hres : Os.resolve w PLOT_DIR = Some (cwd w ++ [PLOT_DIR])).
  { unfold Os.resolve.
    change (String.eqb PLOT_DIR "") with false.
    change (startswith PLOT_DIR "/") with false.
    change (split_slash PLOT_DIR) with [PLOT_DIR].
    cbn [Os.walk]. rewrite Hcwd.
    change (String.eqb PLOT_DIR "" || String.eqb PLOT_DIR ".") with false.
    by change (String.eqb PLOT_DIR "..") with false. }
  unfold make_plot_dir. rewrite Hres. split.
  - intros Hnone. rewrite Hnone. eexists. split; [done|].
    assert (Hempty : ∀ n, fs w !! store_key w n = None).
    { intros n. destruct (fs w !! store_key w n) as [x|] eqn:Hx; [|done].
      rewrite store_key_app in Hx.
      assert (Hdir : fs w !! (cwd w ++ [PLOT_DIR]) = Some Dir)
        by (apply (Htree _ n); by rewrite Hx).
      congruence. }
    assert (Hstore : ∀ n,
      <[cwd w ++ [PLOT_DIR] := Dir]> (fs w) !! store_key w n = None).
    { intros n. rewrite lookup_insert_ne; [apply Hempty|].
      intros Heq. by apply (store_key_not_plots w n). }
    split.
    + split; cbn [fs cwd].
      * rewrite lookup_insert_ne; [done|].
        intros Heq. apply (f_equal length) in Heq.
        rewrite length_app in Heq. cbn in Heq. lia.
      * by rewrite lookup_insert_eq.
      * intros n. unfold store_key. cbn [cwd]. fold (store_key w n).
        by rewrite Hstore.
      * intros n. unfold store_key. cbn [cwd]. fold (store_key w n).
        rewrite Hstore. by intros [x Hx].
    + intros n. unfold artifact, store_key. cbn [cwd fs]. fold (store_key w n).
      by rewrite Hstore.
  - intros Hok. by rewrite (plots_is_dir w Hok).
Qed.

Ltac keeps_store_step :=
  first
    [ apply (respects_ret keeps_store)
    | apply (respects_raise keeps_store)
    | apply (respects_lift keeps_store)
    | apply (respects_get_world keeps_store)
    | apply (respects_json_response keeps_store)
    | apply keeps_store_log
    | apply keeps_store_write_file
    | apply (respects_unchanged keeps_store); intros ?; apply listdir_unchanged
    | apply (respects_unchanged keeps_store); intros ?; apply zf_write_unchanged
    | apply (respects_bind keeps_store); [|intros ?]
    | apply (respects_try_except keeps_store); [|intros ?]
    | apply (respects_for_each keeps_store); intros ? ?
    | match goal with
      | |- respects _ (if ?b then _ else _) => destruct b
      | |- respects _ (match ?x with _ => _ end) => destruct x
      end ].

Lemma keeps_store_plot_sweep df cols : respects keeps_store (plot_sweep df cols).
Proof.
  unfold plot_sweep.
  apply (respects_for_each keeps_store). intros column acc.
  apply (respects_for_each keeps_store). intros plot_type paths.
  unfold plot_one, plot, save_plot. repeat keeps_store_step.
Qed.

(** No request, whatever is uploaded or asked for and whatever the
    libraries answer, takes the store out of place: after every handler
    [PLOT_DIR] is still a flat directory of regular files.  The two
    download handlers leave the whole world as it is. *)
Theorem handlers_keep_store (upload : UploadFile) (plot_name : string) :
  respects keeps_store (upload_file upload) ∧
  respects keeps_store (generate_all_plots upload) ∧
  respects eq (download_plot plot_name) ∧
  respects eq download_all_plots.
Proof.
  split_and!.
  - unfold upload_file, upload_file_body, validate_extension, pd_read_excel.
    repeat keeps_store_step.
  - unfold generate_all_plots, generate_all_plots_body, validate_extension,
      pd_read_excel.
    repeat first [apply keeps_store_plot_sweep | keeps_store_step].
  - intros w o w'. unfold download_plot, bind, get_world.
    destruct (Os.path_exists w (join PLOT_DIR plot_name)); by intros [= <- <-].
  - apply (respects_try_except eq); [|intros e; apply (respects_raise eq)].
    apply (respects_bind eq); [|intros zf; apply (respects_ret eq)].
    unfold archive_all.
    apply (respects_bind eq).
    + apply (respects_unchanged eq). intros w. apply listdir_unchanged.
    + intros names. apply (respects_for_each eq). intros n zf.
      apply (respects_unchanged eq). intros w. apply zf_write_unchanged.
Qed.

End Invariant.

(** ** Concrete runs *)

Section Runs.
Import PyStr OsPath.

Lemma store_ok_w0 : store_ok Demo.w0.
Proof.
  split.
  - by vm_compute.
  - by vm_compute.
  - intros n. unfold store_key, Demo.w0. cbn [cwd fs app list_to_map foldr uncurry].
    by rewrite !lookup_insert_ne, lookup_empty by done.
  - intros n [x Hx]. revert Hx.
    unfold store_key, Demo.w0. cbn [cwd fs app list_to_map foldr uncurry].
    by rewrite !lookup_insert_ne, lookup_empty by done.
Qed.

Lemma store_ok_w1 : store_ok Demo.w1.
Proof.
  unfold Demo.w1.
  apply with_artifact_ok; [|done].
  apply with_artifact_ok; [|done].
  apply store_ok_w0.
Qed.

(** C9, the counterexample.  In a store that holds no artifact named
    [/etc/passwd] - no entry of a directory has such a name - the request
    for that name is not answered 404: the joined path is [/etc/passwd]
    itself, it exists, and its content is served with status 200. *)
Lemma download_plot_not_found_counterexample :
  store_ok Demo.w0 ∧
  artifact Demo.w0 "/etc/passwd" = None ∧
  (serve (download_plot "/etc/passwd") Demo.w0).1 =
    Response 200 "image/png" (Some "/etc/passwd") (BodyBytes [Byte.x72]) ∧
  ¬ (∀ w plot_name,
       store_ok w → artifact w plot_name = None →
       (serve (download_plot plot_name) w).1 =
         Response 404 "application/json" None
           (BodyJSON (PDict [("detail", PStr "Plot not found")]))).
Proof.
  assert (Hart : artifact Demo.w0 "/etc/passwd" = None) by by vm_compute.
  assert (Hserve : (serve (download_plot "/etc/passwd") Demo.w0).1 =
    Response 200 "image/png" (Some "/etc/passwd") (BodyBytes [Byte.x72]))
    by by vm_compute.
  split_and!; [apply store_ok_w0|done|done|].
  intros Hclaim.
  specialize (Hclaim Demo.w0 "/etc/passwd" store_ok_w0 Hart).
  rewrite Hserve in Hclaim. discriminate Hclaim.
Qed.

(** C10, as the code has it.  [GET /download-plot/] does nothing to [plot_name] but join it to
    [PLOT_DIR]: an absolute name replaces the directory, any other name is
    appended after ["plots/"] as it is, [..] segments and separators
    included.  Whenever the joined path exists the handler returns a
    [FileResponse] for it; whenever it names a regular file the client gets
    200 with that file's bytes, wherever path lookup leads, and whenever it
    names a directory the response cannot be sent and the client gets 500.
    So a name with
    [..] segments and an absolute name both fetch [/etc/passwd], which is
    outside the store, from a process running in [/srv]. *)
Theorem download_plot_unsanitized (w : world) (plot_name : string) :
  join PLOT_DIR plot_name =
    (if startswith plot_name "/" then plot_name else "plots/" +:+ plot_name) ∧
  (Os.path_exists w (join PLOT_DIR plot_name) = true →
     download_plot plot_name w =
       (Returned (FileResponse (PathStr (join PLOT_DIR plot_name))
                               "image/png" plot_name), w)) ∧
  (∀ data, Os.stat w (join PLOT_DIR plot_name) = Some (File data) →
     serve (download_plot plot_name) w =
       (Response 200 "image/png" (Some plot_name) (BodyBytes data), w)) ∧
  (Os.stat w (join PLOT_DIR plot_name) = Some Dir →
     serve (download_plot plot_name) w = (internal_server_error, w)) ∧
  (artifact Demo.w0 "../../etc/passwd" = None ∧
   Os.resolve Demo.w0 (join PLOT_DIR "../../etc/passwd") = Some ["etc"; "passwd"] ∧
   (serve (download_plot "../../etc/passwd") Demo.w0).1 =
     Response 200 "image/png" (Some "../../etc/passwd") (BodyBytes [Byte.x72])) ∧
  (artifact Demo.w0 "/etc/passwd" = None ∧
   Os.resolve Demo.w0 (join PLOT_DIR "/etc/passwd") = Some ["etc"; "passwd"] ∧
   (serve (download_plot "/etc/passwd") Demo.w0).1 =
     Response 200 "image/png" (Some "/etc/passwd") (BodyBytes [Byte.x72])).
Proof.
  split_and!.
  - unfold join. by destruct (startswith plot_name "/").
  - apply download_plot_found.
  - apply download_plot_serves_file.
  - intros Hstat. unfold serve.
    rewrite download_plot_found by by eapply path_exists_stat.
    cbn. by rewrite Hstat.
  - by vm_compute.
  - by vm_compute.
  - by vm_compute.
  - by vm_compute.
  - by vm_compute.
  - by vm_compute.
Qed.

(** C5, evaluated.  With two artifacts in the store the archive is built
    and the handler returns it - but as the path argument of a
    [FileResponse].  The client receives 500 "Internal Server Error" as
    plain text: neither the 200 with the [application/zip] body named
    [all_plots.zip], nor a JSON detail. *)
Lemma download_all_plots_evaluated :
  store_ok Demo.w1 ∧
  download_all_plots (libs := Demo.libs Demo.tAB) Demo.w1 =
    (Returned (FileResponse
       (BytesIO [("old_hist.png", [Byte.x50]); ("A_line.png", [Byte.x89])])
       "application/zip" "all_plots.zip"),
     Demo.w1) ∧
  (serve (download_all_plots (libs := Demo.libs Demo.tAB)) Demo.w1).1 =
    Response 500 "text/plain; charset=utf-8" None (BodyText "Internal Server Error") ∧
  status (serve (download_all_plots (libs := Demo.libs Demo.tAB)) Demo.w1).1 ≠ 200%Z.
Proof.
  split_and!.
  - apply store_ok_w1.
  - by vm_compute.
  - by vm_compute.
  - by vm_compute.
Qed.

Lemma well_formed_tAB : well_formed Demo.tAB.
Proof.
  intros c Hc. apply list_elem_of_In in Hc.
  by destruct Hc as [<-|[<-|[]]].
Qed.

(** *** The theorems above, at concrete inputs *)

Lemma two_numeric_columns_sweep_witness :
  status (serve (generate_all_plots (libs := Demo.libs Demo.tAB) Demo.xlsx)
                Demo.w0).1 = 200%Z.
Proof.
  destruct (two_numeric_columns_sweep (libs := Demo.libs Demo.tAB)
              Demo.xlsx Demo.w0 "data.xlsx" (λ _, [Byte.x89])
              eq_refl eq_refl eq_refl (λ _, eq_refl) store_ok_w0)
    as (_ & _ & _ & Hstatus & _).
  exact Hstatus.
Defined.

Lemma no_numeric_columns_rejected_witness :
  generate_all_plots_body (libs := Demo.libs Demo.t_text) Demo.xlsx Demo.w0 =
    (Raised (HTTPException 400 "No numeric columns found to plot."),
     logged Demo.w0 [CallReadExcel []]).
Proof.
  destruct (no_numeric_columns_rejected (libs := Demo.libs Demo.t_text)
              Demo.xlsx Demo.w0 "data.xlsx" Demo.t_text
              eq_refl eq_refl eq_refl eq_refl)
    as (Hbody & _).
  exact Hbody.
Defined.

Lemma single_numeric_column_sweep_witness :
  plot_sweep (libs := Demo.libs Demo.t_one) Demo.t_one ["score"] Demo.w0 =
    (Returned ["plots/score_line.png"; "plots/score_bar.png"; "plots/score_hist.png"],
     figures_saved Demo.w0
       [ (SeriesPlot "score" "line" "Line Plot for score" None,
          "score_line.png", [Byte.x89]);
         (SeriesPlot "score" "bar" "Bar Plot for score" None,
          "score_bar.png", [Byte.x89]);
         (SeriesPlot "score" "hist" "Histogram for score" (Some 10%Z),
          "score_hist.png", [Byte.x89]) ]).
Proof.
  destruct (single_numeric_column_sweep (libs := Demo.libs Demo.t_one)
              Demo.t_one "score" Demo.w0 eq_refl)
    as [_ Hsaved].
  destruct (Hsaved [Byte.x89] [Byte.x89] [Byte.x89]
              eq_refl store_ok_w0 eq_refl eq_refl eq_refl)
    as (Hsweep & _).
  exact Hsweep.
Defined.

Lemma archive_all_members_witness :
  ∃ zf, archive_all Demo.w1 = (Returned zf, Demo.w1) ∧
        (∀ n, n ∈ namelist zf ↔ is_Some (artifact Demo.w1 n)).
Proof.
  destruct (archive_all_members Demo.w1 store_ok_w1)
    as (zf & Harch & _ & _ & _ & Hnames & _).
  exists zf. split; [exact Harch|exact Hnames].
Defined.

Lemma to_dict_records_shape_witness :
  length (to_dict_records Demo.tAB) = 3%nat.
Proof.
  destruct (to_dict_records_shape Demo.tAB well_formed_tAB) as [Hlen _].
  exact Hlen.
Defined.

Lemma invalid_extension_rejected_witness :
  ∃ detail,
    serve (upload_file (libs := Demo.libs Demo.tAB) Demo.csv) Demo.w0 =
      (Response 400 "application/json" None
         (BodyJSON (PDict [("detail", PStr detail)])), Demo.w0).
Proof.
  destruct (invalid_extension_rejected (libs := Demo.libs Demo.tAB)
              Demo.csv Demo.w0)
    as (Hupload & _).
  - intros name Hname. injection Hname as <-. reflexivity.
  - exact Hupload.
Defined.

Lemma download_plot_by_joined_path_witness :
  serve (download_plot "A_line.png") Demo.w1 =
    (Response 200 "image/png" (Some "A_line.png") (BodyBytes [Byte.x89]), Demo.w1) ∧
  serve (download_plot "missing.png") Demo.w1 =
    (Response 404 "application/json" None
       (BodyJSON (PDict [("detail", PStr "Plot not found")])), Demo.w1).
Proof.
  split.
  - destruct (download_plot_by_joined_path Demo.w1 "A_line.png" store_ok_w1)
      as (Hfound & _).
    apply Hfound. vm_compute. reflexivity.
  - destruct (download_plot_by_joined_path Demo.w1 "missing.png" store_ok_w1)
      as (_ & Hmissing & _).
    apply Hmissing. vm_compute. reflexivity.
Defined.

Lemma download_plot_unsanitized_witness :
  serve (download_plot "../../etc/passwd") Demo.w0 =
    (Response 200 "image/png" (Some "../../etc/passwd") (BodyBytes [Byte.x72]),
     Demo.w0).
Proof.
  destruct (download_plot_unsanitized Demo.w0 "../../etc/passwd")
    as (_ & _ & Hserved & _).
  apply Hserved. vm_compute. reflexivity.
Defined.

End Runs.

(** * Further properties *)

(** ** The sweep for any table *)

Ltac store_still_ok :=
  repeat first
    [ assumption
    | apply logged_ok
    | apply figure_saved_ok;
      [|first [reflexivity | by apply artifact_name_ok]] ].

Ltac sweep_turn lem :=
  rewrite for_each_cons;
  erewrite lem; [cbn match|store_still_ok|first [reflexivity|assumption]|eauto].

Section GeneralSweep.
Context {libs : Collaborators}.
Import PyStr OsPath.

Lemma figures_saved_app w figs figs' :
  figures_saved w (figs ++ figs') = figures_saved (figures_saved w figs) figs'.
Proof. unfold figures_saved. apply fold_left_app. Qed.

Lemma figures_saved_ok w figs :
  store_ok w →
  Forall (λ fig, Os.entry_name fig.1.2 = true) figs →
  store_ok (figures_saved w figs).
Proof.
  intros Hok Hfigs. revert w Hok.
  induction Hfigs as [|[[req n] png] figs Hn _ IH]; intros w Hok; [done|].
  cbn [figures_saved fold_left]. apply IH. by apply figure_saved_ok.
Qed.

Lemma plotted_types_slash_free n t :
  t ∈ plotted_types n → slash_free t = true.
Proof.
  unfold plotted_types, plot_types. destruct (n <? 2)%nat; intros Ht;
    apply list_elem_of_In in Ht; cbn in Ht;
    repeat (destruct Ht as [<-|Ht]; [done|]); done.
Qed.

Lemma column_figures_names png cols column :
  slash_free column = true →
  Forall (λ fig, Os.entry_name fig.1.2 = true) (column_figures png cols column).
Proof.
  intros Hc. unfold column_figures. apply Forall_forall.
  intros fig Hfig. apply list_elem_of_fmap in Hfig as (t & -> & Ht). cbn.
  apply artifact_name_ok; [done|]. by eapply plotted_types_slash_free.
Qed.

(** The four turns of the inner loop for one column. *)
Lemma column_turns df cols column png paths w :
  (∀ req, render df req = Returned (png req)) →
  store_ok w → slash_free column = true →
  for_each plot_types (plot_one df cols column) paths w =
    (Returned (paths ++ map (λ t, join PLOT_DIR (artifact_name column t))
                            (plotted_types (length cols))),
     figures_saved w (column_figures png cols column)).
Proof.
  intros Hrender Hok Hc. unfold plot_types.
  destruct cols as [|x [|y cols]].
  - sweep_turn plot_one_line. sweep_turn plot_one_bar.
    rewrite for_each_cons. change (plot_one df [] column "scatter" ?p ?v)
      with (@Returned (list string) p, v). cbn match.
    sweep_turn plot_one_hist.
    rewrite for_each_nil, <- !app_assoc. reflexivity.
  - sweep_turn plot_one_line. sweep_turn plot_one_bar.
    rewrite for_each_cons, plot_one_scatter_skipped.
    sweep_turn plot_one_hist.
    rewrite for_each_nil, <- !app_assoc. reflexivity.
  - sweep_turn plot_one_line. sweep_turn plot_one_bar.
    sweep_turn plot_one_scatter. sweep_turn plot_one_hist.
    rewrite for_each_nil, <- !app_assoc. reflexivity.
Qed.

Lemma column_loop df cols png cs paths w :
  (∀ req, render df req = Returned (png req)) →
  store_ok w → Forall (λ c, slash_free c = true) cs →
  for_each cs
    (λ column plot_paths,
       for_each plot_types (plot_one df cols column) plot_paths) paths w =
    (Returned (paths ++ flat_map
                 (λ c, map (λ t, join PLOT_DIR (artifact_name c t))
                           (plotted_types (length cols))) cs),
     figures_saved w (flat_map (column_figures png cols) cs)).
Proof.
  intros Hrender Hok Hcs. revert paths w Hok.
  induction Hcs as [|c cs Hc _ IH]; intros paths w Hok.
  - rewrite for_each_nil. cbn. by rewrite app_nil_r.
  - rewrite for_each_cons, (column_turns df cols c png paths w Hrender Hok Hc).
    cbn match. rewrite IH.
    + cbn [flat_map]. by rewrite figures_saved_app, <- app_assoc.
    + apply figures_saved_ok; [done|]. by apply column_figures_names.
Qed.

Lemma sweep_figures_names png cols :
  Forall (λ c, slash_free c = true) cols →
  Forall (λ fig, Os.entry_name fig.1.2 = true) (sweep_figures png cols).
Proof.
  intros Hcols. unfold sweep_figures. apply Forall_forall. intros fig Hfig.
  apply list_elem_of_In, in_flat_map in Hfig as (c & Hc & Hfig).
  apply list_elem_of_In in Hc, Hfig.
  rewrite Forall_forall in Hcols.
  pose proof (column_figures_names png cols c (Hcols c Hc)) as Hnames.
  rewrite Forall_forall in Hnames. by apply Hnames.
Qed.

Lemma sweep_names_length cols :
  length (sweep_names cols) =
    (length (plotted_types (length cols)) * length cols)%nat.
Proof.
  unfold sweep_names. generalize (plotted_types (length cols)) as ts.
  intros ts. induction cols as [|c cols IH]; cbn [flat_map length]; [lia|].
  rewrite length_app, length_map, IH. lia.
Qed.

Lemma map_join_sweep_names cols :
  map (join PLOT_DIR) (sweep_names cols) =
  flat_map (λ c, map (λ t, join PLOT_DIR (artifact_name c t))
                     (plotted_types (length cols))) cols.
Proof.
  unfold sweep_names. generalize (plotted_types (length cols)) as ts.
  intros ts. induction cols as [|c cols IH]; [done|].
  cbn [flat_map]. by rewrite map_app, map_map, IH.
Qed.

(** The sweep in closed form.  For any table and any list of numeric
    columns whose names can be part of a file name, with the store in place
    and a plotting library that renders every figure, the sweep returns the
    paths of [{column}_{kind}.png], column by column in the given order and
    kind by kind in the order line, bar, scatter, hist - without scatter
    when there are fewer than two columns - and leaves exactly these figures
    saved, in this order, with the store still in place.  That makes three
    artifacts for one column and four per column from two columns on. *)
Theorem plot_sweep_closed_form (df : Table) (cols : list string)
    (png : plot_request → bytes) (w : world) :
  (∀ req, render df req = Returned (png req)) →
  store_ok w →
  Forall (λ c, slash_free c = true) cols →
  plot_sweep df cols w =
    (Returned (map (join PLOT_DIR) (sweep_names cols)),
     figures_saved w (sweep_figures png cols)) ∧
  store_ok (figures_saved w (sweep_figures png cols)) ∧
  length (sweep_names cols) =
    (if (length cols <? 2)%nat then 3 * length cols else 4 * length cols)%nat.
Proof.
  intros Hrender Hok Hcols. split_and!.
  - unfold plot_sweep.
    rewrite (column_loop df cols png cols [] w Hrender Hok Hcols).
    by rewrite map_join_sweep_names.
  - apply figures_saved_ok; [done|]. by apply sweep_figures_names.
  - rewrite sweep_names_length. unfold plotted_types.
    by destruct (length cols <? 2)%nat.
Qed.

End GeneralSweep.

(** ** Artifact names *)

Section Names.
Import PyStr OsPath.

Lemma list_ascii_app a b :
  String.list_ascii_of_string (a +:+ b) =
  String.list_ascii_of_string a ++ String.list_ascii_of_string b.
Proof.
  induction a as [|c a IH]; [done|].
  change (String c a +:+ b) with (String c (a +:+ b)). cbn. by rewrite IH.
Qed.

Lemma list_ascii_inj a b :
  String.list_ascii_of_string a = String.list_ascii_of_string b → a = b.
Proof.
  intros Heq. rewrite <- (String.string_of_list_ascii_of_string a),
    <- (String.string_of_list_ascii_of_string b). by rewrite Heq.
Qed.

Lemma string_app_inv_tail a b s : a +:+ s = b +:+ s → a = b.
Proof.
  intros Heq. apply list_ascii_inj.
  apply (f_equal String.list_ascii_of_string) in Heq.
  rewrite !list_ascii_app in Heq. by apply app_inv_tail in Heq.
Qed.

(** Of two strings with a common end, the shorter ending ends the longer. *)
Lemma common_end {A} (a b s s' : list A) :
  a ++ s = b ++ s' → (length s ≤ length s')%nat →
  s = drop (length s' - length s) s'.
Proof.
  intros Heq Hlen.
  assert (Hab : length a = (length b + (length s' - length s))%nat).
  { apply (f_equal length) in Heq. rewrite !length_app in Heq. lia. }
  apply (f_equal (drop (length a))) in Heq.
  rewrite drop_app_length, Hab, drop_app_ge in Heq by lia.
  by replace (length b + (length s' - length s) - length b)%nat
    with (length s' - length s)%nat in Heq by lia.
Qed.

Lemma common_end_string a b s s' :
  a +:+ s = b +:+ s' →
  (String.length s ≤ String.length s')%nat →
  String.list_ascii_of_string s =
    drop (String.length s' - String.length s) (String.list_ascii_of_string s').
Proof.
  intros Heq Hlen. apply (f_equal String.list_ascii_of_string) in Heq.
  rewrite !list_ascii_app in Heq.
  assert (Hl : ∀ x, length (String.list_ascii_of_string x) = String.length x).
  { intros x. induction x as [|c x IH]; cbn; [done|]. by rewrite IH. }
  rewrite <- !Hl. apply (common_end _ _ _ _ Heq). rewrite !Hl. done.
Qed.

(** The name [{column}_{kind}.png] determines the column and, among the
    four plot types, the kind. *)
Lemma artifact_name_inj (c c' t t' : string) :
  t ∈ plot_types → t' ∈ plot_types →
  artifact_name c t = artifact_name c' t' →
  c = c' ∧ t = t'.
Proof.
  unfold plot_types, artifact_name. intros Ht Ht' Heq.
  apply list_elem_of_In in Ht, Ht'. cbn in Ht, Ht'.
  assert (Hsame : ∀ s, c +:+ s = c' +:+ s → c = c')
    by (intros s; apply string_app_inv_tail).
  assert (Hle : ∀ s s', c +:+ s = c' +:+ s' →
            (String.length s ≤ String.length s')%nat →
            String.list_ascii_of_string s =
              drop (String.length s' - String.length s) (String.list_ascii_of_string s'))
    by (intros s s'; apply common_end_string).
  assert (Hge : ∀ s s', c +:+ s = c' +:+ s' →
            (String.length s' ≤ String.length s)%nat →
            String.list_ascii_of_string s' =
              drop (String.length s - String.length s') (String.list_ascii_of_string s)).
  { intros s s' Hs. by apply (common_end_string c' c s' s). }
  destruct Ht as [<-|[<-|[<-|[<-|[]]]]];
    destruct Ht' as [<-|[<-|[<-|[<-|[]]]]];
    first
      [ split; [by eapply Hsame|done]
      | exfalso; apply Hle in Heq; [vm_compute in Heq; discriminate Heq|];
        vm_compute; lia
      | exfalso; apply Hge in Heq; [vm_compute in Heq; discriminate Heq|];
        vm_compute; lia ].
Qed.

End Names.

(** ** Generating, then downloading *)

Section Composition.
Context {libs : Collaborators}.
Import PyStr OsPath.

Lemma artifact_logged w cs n : artifact (logged w cs) n = artifact w n.
Proof. reflexivity. Qed.

Lemma artifact_figures_saved_other w figs n :
  (∀ fig, fig ∈ figs → fig.1.2 ≠ n) →
  artifact (figures_saved w figs) n = artifact w n.
Proof.
  revert w. induction figs as [|[[req n'] data] figs IH]; intros w Hfigs; [done|].
  cbn [figures_saved fold_left]. fold (figures_saved (figure_saved w (req, n', data)) figs).
  rewrite IH.
  - rewrite artifact_figure_saved.
    destruct (decide (n = n')) as [->|Hne]; [|done].
    exfalso. apply (Hfigs (req, n', data)); [|done]. apply elem_of_cons. by left.
  - intros fig Hfig. apply Hfigs, elem_of_cons. by right.
Qed.

Lemma artifact_figures_saved_in w figs n data :
  (∀ fig, fig ∈ figs → fig.1.2 = n → fig.2 = data) →
  artifact w n = Some data ∨ (∃ fig, fig ∈ figs ∧ fig.1.2 = n) →
  artifact (figures_saved w figs) n = Some data.
Proof.
  revert w. induction figs as [|[[req n'] d] figs IH]; intros w Hsame Hin.
  - destruct Hin as [Hw|(fig & Hfig & _)]; [done|by apply elem_of_nil in Hfig].
  - cbn [figures_saved fold_left].
    fold (figures_saved (figure_saved w (req, n', d)) figs).
    apply IH.
    + intros fig Hfig. apply Hsame, elem_of_cons. by right.
    + rewrite artifact_figure_saved.
      destruct (decide (n = n')) as [->|Hne].
      * left. f_equal. apply (Hsame (req, n', d)); [|done].
        apply elem_of_cons. by left.
      * destruct Hin as [Hw|(fig & Hfig & Hn)]; [by left|].
        apply elem_of_cons in Hfig as [->|Hfig]; [by cbn in Hn; subst|].
        right. by exists fig.
Qed.

Lemma elem_of_sweep_figures png cols fig :
  fig ∈ sweep_figures png cols ↔
  ∃ c t, c ∈ cols ∧ t ∈ plotted_types (length cols) ∧
         fig = (request_of cols c t, artifact_name c t, png (request_of cols c t)).
Proof.
  unfold sweep_figures, column_figures.
  rewrite list_elem_of_In, in_flat_map. split.
  - intros (c & Hc & Hfig). apply list_elem_of_In in Hc, Hfig.
    apply list_elem_of_fmap in Hfig as (t & -> & Ht). by exists c, t.
  - intros (c & t & Hc & Ht & ->). exists c. split; [by apply list_elem_of_In|].
    apply list_elem_of_In, list_elem_of_fmap. by exists t.
Qed.

Lemma elem_of_sweep_names cols n :
  n ∈ sweep_names cols ↔
  ∃ c t, c ∈ cols ∧ t ∈ plotted_types (length cols) ∧ n = artifact_name c t.
Proof.
  unfold sweep_names. rewrite list_elem_of_In, in_flat_map. split.
  - intros (c & Hc & Hn). apply list_elem_of_In in Hc, Hn.
    apply list_elem_of_fmap in Hn as (t & -> & Ht). by exists c, t.
  - intros (c & t & Hc & Ht & ->). exists c. split; [by apply list_elem_of_In|].
    apply list_elem_of_In, list_elem_of_fmap. by exists t.
Qed.

Lemma plotted_types_plot_types n t : t ∈ plotted_types n → t ∈ plot_types.
Proof.
  unfold plotted_types, plot_types. destruct (n <? 2)%nat; [|done].
  intros Ht. apply list_elem_of_In in Ht. apply list_elem_of_In. cbn in *. tauto.
Qed.

Lemma artifact_name_same_figure c t c' t' n n' :
  t ∈ plotted_types n → t' ∈ plotted_types n' →
  artifact_name c' t' = artifact_name c t → c' = c ∧ t' = t.
Proof.
  intros Ht Ht'. apply artifact_name_inj; by eapply plotted_types_plot_types.
Qed.

Lemma NoDup_plotted_types n : NoDup (plotted_types n).
Proof.
  unfold plotted_types, plot_types.
  destruct (n <? 2)%nat; repeat (apply NoDup_cons; split;
    [intros Hin; apply list_elem_of_In in Hin; cbn in Hin;
     repeat (destruct Hin as [Hin|Hin]; [discriminate Hin|]); done|]);
    apply NoDup_nil_2.
Qed.

(** Over columns with distinct names, the names [{column}_{kind}.png] for
    each column and each kind plotted are pairwise distinct, because such a
    name determines both the column and the kind. *)
Lemma sweep_names_distinct (cols : list string) :
  NoDup cols →
  NoDup (sweep_names cols) ∧
  ∀ c c' t t', t ∈ plot_types → t' ∈ plot_types →
     artifact_name c t = artifact_name c' t' → c = c' ∧ t = t'.
Proof.
  intros Hcols. split; [|intros c c' t t'; apply artifact_name_inj].
  unfold sweep_names. generalize (eq_refl (length cols)).
  generalize (length cols) at 1 3 as n. intros n _.
  induction Hcols as [|c cols Hc Hcols IH]; [apply NoDup_nil_2|].
  cbn [flat_map]. apply NoDup_app. split_and!.
  - apply NoDup_fmap_2_strong; [|apply NoDup_plotted_types].
    intros t t' Ht Ht' Heq.
    by destruct (artifact_name_same_figure c t c t' n n Ht Ht' (eq_sym Heq)).
  - intros x (t & -> & Ht)%list_elem_of_fmap Hin.
    apply list_elem_of_In, in_flat_map in Hin as (c' & Hc' & Hin).
    apply list_elem_of_In in Hc', Hin.
    apply list_elem_of_fmap in Hin as (t' & Heq & Ht').
    destruct (artifact_name_same_figure c' t' c t n n Ht' Ht Heq) as [-> _].
    done.
  - exact IH.
Qed.

(** What the store holds after a sweep. *)
Lemma artifact_after_sweep png cols w :
  (∀ c t, c ∈ cols → t ∈ plotted_types (length cols) →
     artifact (figures_saved w (sweep_figures png cols)) (artifact_name c t)
       = Some (png (request_of cols c t))) ∧
  (∀ n, n ∉ sweep_names cols →
     artifact (figures_saved w (sweep_figures png cols)) n = artifact w n).
Proof.
  split.
  - intros c t Hc Ht. apply artifact_figures_saved_in.
    + intros fig (c' & t' & Hc' & Ht' & ->)%elem_of_sweep_figures. cbn.
      intros Heq.
      by destruct (artifact_name_same_figure c t c' t' _ _ Ht Ht' Heq) as [-> ->].
    + right.
      exists (request_of cols c t, artifact_name c t, png (request_of cols c t)).
      split; [|done]. apply elem_of_sweep_figures. by exists c, t.
  - intros n Hn. apply artifact_figures_saved_other.
    intros fig (c & t & Hc & Ht & ->)%elem_of_sweep_figures. cbn.
    intros <-. apply Hn, elem_of_sweep_names. by exists c, t.
Qed.

Lemma plot_url_in_store n :
  Os.entry_name n = true →
  plot_url (join PLOT_DIR n) =
    "http://127.0.0.1:8000/download-plot/?plot_name=" +:+ n.
Proof.
  intros Hn. unfold plot_url. rewrite (join_in_store n Hn).
  destruct (entry_name_inv n Hn) as (Hfree & _). by rewrite basename_in_store.
Qed.

Lemma sweep_names_entry_names cols n :
  Forall (λ c, slash_free c = true) cols →
  n ∈ sweep_names cols → Os.entry_name n = true.
Proof.
  intros Hcols (c & t & Hc & Ht & ->)%elem_of_sweep_names.
  rewrite Forall_forall in Hcols.
  apply artifact_name_ok; [by apply Hcols|]. by eapply plotted_types_slash_free.
Qed.

Lemma plot_sweep_saves_figures df cols png w :
  (∀ req, render df req = Returned (png req)) →
  store_ok w →
  Forall (λ c, slash_free c = true) cols →
  plot_sweep df cols w =
    (Returned (map (join PLOT_DIR) (sweep_names cols)),
     figures_saved w (sweep_figures png cols)).
Proof.
  intros Hrender Hok Hcols. unfold plot_sweep.
  rewrite (column_loop df cols png cols [] w Hrender Hok Hcols).
  by rewrite map_join_sweep_names.
Qed.

(** A sweep over numeric columns with pairwise distinct names free of
    ["/"] never overwrites its own artifacts.  With the store in place and
    figures that render, the paths it returns are pairwise distinct and
    lead to pairwise distinct files, and after the sweep each of them holds
    the PNG rendered for its own column and kind. *)
Theorem sweep_never_overwrites_itself (df : Table) (cols : list string)
    (png : plot_request → bytes) (w : world) :
  (∀ req, render df req = Returned (png req)) →
  store_ok w →
  Forall (λ c, slash_free c = true) cols →
  NoDup cols →
  ∃ paths w',
    plot_sweep df cols w = (Returned paths, w') ∧
    NoDup paths ∧
    (∀ i j p q, paths !! i = Some p → paths !! j = Some q →
       Os.resolve w' p = Os.resolve w' q → i = j) ∧
    (∀ c t, c ∈ cols → t ∈ plotted_types (length cols) →
       join PLOT_DIR (artifact_name c t) ∈ paths ∧
       Os.stat w' (join PLOT_DIR (artifact_name c t)) =
         Some (File (png (request_of cols c t)))).
Proof.
  intros Hrender Hok Hcols Hdistinct.
  exists (map (join PLOT_DIR) (sweep_names cols)),
         (figures_saved w (sweep_figures png cols)).
  assert (Hok' : store_ok (figures_saved w (sweep_figures png cols))).
  { apply figures_saved_ok; [done|]. by apply sweep_figures_names. }
  destruct (sweep_names_distinct cols Hdistinct) as [Hnames _].
  assert (Hres : ∀ n, n ∈ sweep_names cols →
    Os.resolve (figures_saved w (sweep_figures png cols)) (join PLOT_DIR n) =
      Some (store_key (figures_saved w (sweep_figures png cols)) n)).
  { intros n Hn. destruct Hok' as [Hcwd Hplots _ _].
    apply resolve_in_store; [done..|]. by eapply sweep_names_entry_names. }
  split_and!.
  - by apply plot_sweep_saves_figures.
  - apply NoDup_fmap_2_strong; [|done].
    intros n n' Hn Hn' Heq.
    rewrite !join_in_store in Heq by by eapply sweep_names_entry_names.
    by apply string_app_inv_head in Heq.
  - intros i j p q Hp Hq Heq.
    rewrite list_lookup_fmap in Hp, Hq.
    destruct (sweep_names cols !! i) as [n|] eqn:Hi; [|done].
    destruct (sweep_names cols !! j) as [n'|] eqn:Hj; [|done].
    cbn in Hp, Hq. injection Hp as <-. injection Hq as <-.
    rewrite !Hres in Heq by by eapply list_elem_of_lookup_2.
    injection Heq as Heq. apply store_key_inj in Heq as <-.
    by eapply NoDup_lookup.
  - intros c t Hc Ht. split.
    + apply list_elem_of_fmap. exists (artifact_name c t). split; [done|].
      apply elem_of_sweep_names. by exists c, t.
    + apply stat_artifact; [done|]. by apply artifact_after_sweep.
Qed.

(** The response of a successful [/generate-plots/], for any table. *)
Lemma generate_all_plots_closed_form upload w name df png :
  filename upload = Some name →
  endswith_any name [".xls"; ".xlsx"] = true →
  read_excel (file upload) = Returned df →
  (∀ req, render (normalize df) req = Returned (png req)) →
  store_ok w →
  numeric_columns df ≠ [] →
  Forall (λ c, slash_free c = true) (numeric_columns df) →
  generate_all_plots upload w =
    (Returned (JSONResponse (PDict [
       ("message", PStr "Plots generated successfully");
       ("plots",
        PList (map (λ n, PStr ("http://127.0.0.1:8000/download-plot/?plot_name=" +:+ n))
                   (sweep_names (numeric_columns df))));
       ("download_all", PStr "http://127.0.0.1:8000/download-all-plots/")])),
     figures_saved (logged w [CallReadExcel (file upload)])
       (sweep_figures png (numeric_columns df))).
Proof.
  intros Hname Hext Hread Hrender Hok Hnum Hcols.
  assert (Hok1 : store_ok (logged w [CallReadExcel (file upload)]))
    by by apply logged_ok.
  pose proof (plot_sweep_saves_figures (normalize df) (numeric_columns df) png _
                Hrender Hok1 Hcols) as Hsweep.
  rewrite (generate_all_plots_returns upload w name df _ _
             Hname Hext Hread Hnum Hsweep).
  rewrite map_map.
  assert (Hurls :
    map (λ x, PStr (plot_url (join PLOT_DIR x))) (sweep_names (numeric_columns df)) =
    map (λ n, PStr ("http://127.0.0.1:8000/download-plot/?plot_name=" +:+ n))
        (sweep_names (numeric_columns df))).
  { apply map_ext_in. intros n Hn. f_equal. apply plot_url_in_store.
    eapply sweep_names_entry_names; [done|]. by apply list_elem_of_In. }
  by rewrite Hurls.
Qed.

Lemma archive_all_names w :
  store_ok w →
  ∃ zf, archive_all w = (Returned zf, w) ∧
        (∀ n, n ∈ namelist zf ↔ is_Some (artifact w n)) ∧
        (∀ n data, (n, data) ∈ zf ↔ artifact w n = Some data).
Proof.
  intros Hok.
  set (names := Os.children (fs w) (cwd w ++ [PLOT_DIR])).
  assert (Hnames : ∀ n, n ∈ names ↔ is_Some (artifact w n)).
  { intros n. unfold names.
    by rewrite elem_of_children, <- store_key_app, store_entry_artifact. }
  exists (map (λ n, (n, default [] (artifact w n))) names). split_and!.
  - unfold archive_all.
    erewrite bind_returned by by apply listdir_store.
    fold names. rewrite archive_entries; [done..|].
    intros n Hn. by apply Hnames.
  - intros n. unfold namelist. rewrite map_map. cbn. by rewrite map_id.
  - intros n data. rewrite list_elem_of_fmap. split.
    + intros (n' & [= -> ->] & [d Hd]%Hnames). by rewrite Hd.
    + intros Hart. exists n. split; [by rewrite Hart|].
      apply Hnames. by rewrite Hart.
Qed.

(** Generating, then asking for a plot by its name.  For an uploaded
    table with at least one numeric column, all of whose numeric columns
    have names free of ["/"], with the store in place and figures that
    render: the response is 200 and lists, in sweep order, one URL per
    saved artifact, made of the fixed prefix followed by the name
    [{column}_{kind}.png] as it is; and a following [GET /download-plot/]
    whose [plot_name] is one of these names answers 200 with exactly the
    PNG rendered for that column and kind. *)
Theorem generated_plots_are_downloadable (upload : UploadFile) (w : world)
    (name : string) (df : Table) (png : plot_request → bytes) :
  filename upload = Some name →
  endswith_any name [".xls"; ".xlsx"] = true →
  read_excel (file upload) = Returned df →
  (∀ req, render (normalize df) req = Returned (png req)) →
  store_ok w →
  numeric_columns df ≠ [] →
  Forall (λ c, slash_free c = true) (numeric_columns df) →
  let cols := numeric_columns df in
  let w' := (serve (generate_all_plots upload) w).2 in
  (serve (generate_all_plots upload) w).1 =
    Response 200 "application/json" None (BodyJSON (PDict [
      ("message", PStr "Plots generated successfully");
      ("plots",
       PList (map (λ n, PStr ("http://127.0.0.1:8000/download-plot/?plot_name=" +:+ n))
                  (sweep_names cols)));
      ("download_all", PStr "http://127.0.0.1:8000/download-all-plots/")])) ∧
  ∀ c t, c ∈ cols → t ∈ plotted_types (length cols) →
    artifact_name c t ∈ sweep_names cols ∧
    serve (download_plot (artifact_name c t)) w' =
      (Response 200 "image/png" (Some (artifact_name c t))
         (BodyBytes (png (request_of cols c t))), w').
Proof.
  intros Hname Hext Hread Hrender Hok Hnum Hcols cols w'.
  pose proof (generate_all_plots_closed_form upload w name df png
                Hname Hext Hread Hrender Hok Hnum Hcols) as Hgen.
  subst w'. unfold serve. rewrite Hgen. cbn [fst snd send].
  split; [done|]. intros c t Hc Ht. split.
  - apply elem_of_sweep_names. by exists c, t.
  - apply download_plot_serves_file, stat_artifact.
    + apply figures_saved_ok; [by apply logged_ok|].
      by apply sweep_figures_names.
    + by apply artifact_after_sweep.
Qed.

(** Generating, then archiving.  For an uploaded table with at least one
    numeric column, all of whose numeric columns have names free of ["/"],
    with the store in place and figures that render: after
    [/generate-plots/] the archive that the loop of [/download-all-plots/]
    builds holds every file that was in the store before and every artifact
    of the sweep, and nothing else; each new artifact is a member under its
    own name with the PNG just rendered. *)
Theorem generated_plots_are_archived (upload : UploadFile) (w : world)
    (name : string) (df : Table) (png : plot_request → bytes) :
  filename upload = Some name →
  endswith_any name [".xls"; ".xlsx"] = true →
  read_excel (file upload) = Returned df →
  (∀ req, render (normalize df) req = Returned (png req)) →
  store_ok w →
  numeric_columns df ≠ [] →
  Forall (λ c, slash_free c = true) (numeric_columns df) →
  let cols := numeric_columns df in
  let w' := (generate_all_plots upload w).2 in
  ∃ zf,
    archive_all w' = (Returned zf, w') ∧
    (∀ n, n ∈ namelist zf ↔ is_Some (artifact w n) ∨ n ∈ sweep_names cols) ∧
    (∀ c t, c ∈ cols → t ∈ plotted_types (length cols) →
       (artifact_name c t, png (request_of cols c t)) ∈ zf) ∧
    (∀ n data, n ∉ sweep_names cols →
       (n, data) ∈ zf ↔ artifact w n = Some data).
Proof.
  intros Hname Hext Hread Hrender Hok Hnum Hcols cols w'.
  pose proof (generate_all_plots_closed_form upload w name df png
                Hname Hext Hread Hrender Hok Hnum Hcols) as Hgen.
  subst w'. rewrite Hgen. cbn [snd].
  set (w1 := logged w [CallReadExcel (file upload)]).
  assert (Hok' : store_ok (figures_saved w1 (sweep_figures png cols))).
  { apply figures_saved_ok; [by apply logged_ok|].
    by apply sweep_figures_names. }
  destruct (artifact_after_sweep png cols w1) as [Hnew Hold].
  destruct (archive_all_names _ Hok') as (zf & Harch & Hnames & Hmembers).
  exists zf. split_and!.
  - exact Harch.
  - intros n. rewrite Hnames.
    destruct (decide (n ∈ sweep_names cols)) as [Hin|Hnin].
    + apply elem_of_sweep_names in Hin as (c & t & Hc & Ht & ->).
      rewrite (Hnew c t Hc Ht). split; [|by eauto].
      intros _. right. apply elem_of_sweep_names. by exists c, t.
    + rewrite (Hold n Hnin). unfold w1. rewrite artifact_logged. tauto.
  - intros c t Hc Ht. apply Hmembers. by apply Hnew.
  - intros n data Hnin. rewrite Hmembers, (Hold n Hnin). unfold w1.
    by rewrite artifact_logged.
Qed.

End Composition.

(** ** Uploading the same sheet again *)

Section Regenerate.
Context {libs : Collaborators}.
Import PyStr OsPath.

Lemma inserts_lookup {K V} `{Countable K} (l : list (K * V)) (m : gmap K V) k :
  fold_left (λ m kv, <[kv.1 := kv.2]> m) l m !! k =
    match final l k with
    | Some v => Some v
    | None => m !! k
    end.
Proof.
  revert m. induction l as [|[k' v] l IH]; intros m; [done|].
  cbn [fold_left final fst snd]. rewrite IH.
  destruct (final l k) as [v'|]; [done|].
  destruct (decide (k = k')) as [->|Hne].
  - by rewrite lookup_insert_eq.
  - by rewrite lookup_insert_ne.
Qed.

Lemma inserts_twice {K V} `{Countable K} (l : list (K * V)) (m : gmap K V) :
  fold_left (λ m kv, <[kv.1 := kv.2]> m) l
    (fold_left (λ m kv, <[kv.1 := kv.2]> m) l m)
  = fold_left (λ m kv, <[kv.1 := kv.2]> m) l m.
Proof.
  apply map_eq. intros k. rewrite !inserts_lookup.
  by destruct (final l k).
Qed.

Lemma tree_figures_saved w figs :
  cwd (figures_saved w figs) = cwd w ∧
  fs (figures_saved w figs) =
    fold_left (λ m kv, <[kv.1 := kv.2]> m)
      (map (λ fig, (cwd w ++ [PLOT_DIR; fig.1.2], File fig.2)) figs) (fs w).
Proof.
  revert w. induction figs as [|[[req n] data] figs IH]; intros w; [done|].
  cbn [figures_saved fold_left map fst snd].
  fold (figures_saved (figure_saved w (req, n, data)) figs).
  destruct (IH (figure_saved w (req, n, data))) as [-> ->]. done.
Qed.

(** Uploading the same sheet a second time leaves the file tree exactly as
    the first upload left it, and gets the same response: every artifact is
    saved again under the same name, over itself. *)
Theorem regenerating_changes_nothing (upload : UploadFile) (w : world)
    (name : string) (df : Table) (png : plot_request → bytes) :
  filename upload = Some name →
  endswith_any name [".xls"; ".xlsx"] = true →
  read_excel (file upload) = Returned df →
  (∀ req, render (normalize df) req = Returned (png req)) →
  store_ok w →
  numeric_columns df ≠ [] →
  Forall (λ c, slash_free c = true) (numeric_columns df) →
  let w' := (generate_all_plots upload w).2 in
  let w'' := (generate_all_plots upload w').2 in
  (generate_all_plots upload w').1 = (generate_all_plots upload w).1 ∧
  (∃ content, (generate_all_plots upload w).1 = Returned (JSONResponse content)) ∧
  cwd w'' = cwd w' ∧
  fs w'' = fs w' ∧
  (∀ n, artifact w'' n = artifact w' n).
Proof.
  intros Hname Hext Hread Hrender Hok Hnum Hcols w' w''.
  pose proof (generate_all_plots_closed_form upload w name df png
                Hname Hext Hread Hrender Hok Hnum Hcols) as Hgen.
  assert (Hok' : store_ok w').
  { subst w'. rewrite Hgen. cbn [snd].
    apply figures_saved_ok; [by apply logged_ok|].
    by apply sweep_figures_names. }
  pose proof (generate_all_plots_closed_form upload w' name df png
                Hname Hext Hread Hrender Hok' Hnum Hcols) as Hgen'.
  assert (Htree : cwd w'' = cwd w' ∧ fs w'' = fs w').
  { subst w''. rewrite Hgen'. cbn [snd].
    destruct (tree_figures_saved (logged w' [CallReadExcel (file upload)])
                (sweep_figures png (numeric_columns df))) as [-> ->].
    cbn [logged cwd fs]. split; [done|].
    subst w'. rewrite Hgen. cbn [snd].
    destruct (tree_figures_saved (logged w [CallReadExcel (file upload)])
                (sweep_figures png (numeric_columns df))) as [-> ->].
    cbn [logged cwd fs]. apply inserts_twice. }
  destruct Htree as [Hcwd Hfs]. split_and!.
  - by rewrite Hgen', Hgen.
  - rewrite Hgen. by eexists.
  - exact Hcwd.
  - exact Hfs.
  - intros n. unfold artifact, store_key. by rewrite Hcwd, Hfs.
Qed.

End Regenerate.

(** ** What the handlers never do *)

Section Never.
Context {libs : Collaborators}.
Import PyStr OsPath.

#[export] Instance same_tree_preorder : PreOrder same_tree.
Proof.
  split.
  - by intros w.
  - intros w1 w2 w3 [Hc12 Hf12] [Hc23 Hf23]. split; congruence.
Qed.

#[export] Instance tree_grows_preorder : PreOrder tree_grows.
Proof.
  split.
  - intros w. split; [done|]. by intros k.
  - intros w1 w2 w3 [Hc12 H12] [Hc23 H23]. split; [congruence|].
    intros k. destruct (H12 k) as [Hd12 Hs12], (H23 k) as [Hd23 Hs23].
    split; auto.
Qed.

Lemma same_tree_log c : respects same_tree (log c).
Proof. by intros w o w' [= <- <-]. Qed.

Lemma tree_grows_log c : respects tree_grows (log c).
Proof. intros w o w' [= <- <-]. split; [done|]. by intros k. Qed.

Lemma tree_grows_write_file p data : respects tree_grows (write_file p data).
Proof.
  intros w o w'. unfold write_file.
  destruct (Os.resolve w p) as [k|]; [|intros [= <- <-]; reflexivity].
  destruct (fs w !! k) as [[|d]|] eqn:Hk;
    destruct (Os.entry_name (List.last (split_slash p) ""));
    intros [= <- <-]; try reflexivity;
    (split; [done|]; intros k'; cbn [fs];
     destruct (decide (k = k')) as [<-|Hne];
     [rewrite lookup_insert_eq, Hk; split; [done|by eauto]
     |by rewrite lookup_insert_ne]).
Qed.

Ltac respects_step R log_lemma :=
  first
    [ apply (respects_ret R)
    | apply (respects_raise R)
    | apply (respects_lift R)
    | apply (respects_json_response R)
    | apply log_lemma
    | apply tree_grows_write_file
    | apply (respects_bind R); [|intros ?]
    | apply (respects_try_except R); [|intros ?]
    | apply (respects_for_each R); intros ? ?
    | match goal with
      | |- respects _ (if ?b then _ else _) => destruct b
      | |- respects _ (match ?x with _ => _ end) => destruct x
      end ].

(** No request removes anything.  [POST /upload/] leaves the file tree
    exactly as it was, whatever is uploaded and whatever the parser
    answers.  [POST /generate-plots/] only ever creates or overwrites
    regular files: after it, every path that existed still exists and every
    directory is still a directory - also when the request fails half-way
    through the sweep. *)
Theorem no_handler_removes_files (upload : UploadFile) :
  respects same_tree (upload_file upload) ∧
  respects tree_grows (generate_all_plots upload).
Proof.
  split.
  - unfold upload_file, upload_file_body, validate_extension, pd_read_excel.
    repeat respects_step same_tree same_tree_log.
  - unfold generate_all_plots, generate_all_plots_body, validate_extension,
      pd_read_excel, plot_sweep, plot_one, plot, save_plot.
    repeat respects_step tree_grows tree_grows_log.
Qed.

Lemma returns_only_bind {A B} (P : B → Prop) (m : M A) (k : A → M B) :
  (∀ a, returns_only P (k a)) → returns_only P (bind m k).
Proof.
  intros Hk w b w'. unfold bind.
  destruct (m w) as [[a|e] w1]; [|done]. apply Hk.
Qed.

Lemma returns_only_ret {A} (P : A → Prop) a : P a → returns_only P (ret a).
Proof. by intros Ha w a' w' [= <- <-]. Qed.

Lemma returns_only_raise {A} (P : A → Prop) e : returns_only P (raise e).
Proof. by intros w a w'. Qed.

Lemma returns_only_json_response content :
  returns_only is_json (json_response content).
Proof.
  unfold json_response. destruct (json_error content).
  - apply returns_only_raise.
  - by apply returns_only_ret.
Qed.

Lemma upload_file_body_json upload : returns_only is_json (upload_file_body upload).
Proof.
  unfold upload_file_body.
  apply returns_only_bind. intros _. apply returns_only_bind. intros df.
  apply returns_only_json_response.
Qed.

Lemma generate_all_plots_body_json upload :
  returns_only is_json (generate_all_plots_body upload).
Proof.
  unfold generate_all_plots_body.
  apply returns_only_bind. intros _. apply returns_only_bind. intros df.
  case_bool_decide; [apply returns_only_raise|].
  apply returns_only_bind. intros paths. apply returns_only_json_response.
Qed.

Lemma try_400_outcomes (body : M handler_return) (prefix : string) w :
  returns_only is_json body →
  let r := (serve (try_except body
              (λ e, raise (HTTPException 400 (prefix +:+ str_of e)))) w).1 in
  (∃ content, r = Response 200 "application/json" None (BodyJSON content)) ∨
  (∃ e, r = Response 400 "application/json" None
              (BodyJSON (PDict [("detail", PStr (prefix +:+ str_of e))]))).
Proof.
  intros Hbody. unfold serve, try_except.
  destruct (body w) as [[r|e] w1] eqn:Hb; cbn.
  - left. pose proof (Hbody w r w1 Hb) as Hjson.
    destruct r as [content|]; [|done]. by eexists.
  - right. by eexists.
Qed.

(** Every answer of the two upload endpoints is JSON with status 200 or
    400: whatever goes wrong inside - a bad extension, an unreadable sheet,
    a plotting or file-system error - leaves the handler as a 400 whose
    detail is the endpoint's prefix followed by the text of the exception.
    [GET /download-plot/] answers 200, 404 or, when the path it found
    cannot be sent as a file, 500. *)
Theorem response_statuses (upload : UploadFile) (plot_name : string) (w : world) :
  ((∃ content, (serve (upload_file upload) w).1 =
      Response 200 "application/json" None (BodyJSON content)) ∨
   (∃ e, (serve (upload_file upload) w).1 =
      Response 400 "application/json" None
        (BodyJSON (PDict [("detail",
           PStr ("An error occurred while processing the file: " +:+ str_of e))])))) ∧
  ((∃ content, (serve (generate_all_plots upload) w).1 =
      Response 200 "application/json" None (BodyJSON content)) ∨
   (∃ e, (serve (generate_all_plots upload) w).1 =
      Response 400 "application/json" None
        (BodyJSON (PDict [("detail",
           PStr ("An error occurred while creating plots: " +:+ str_of e))])))) ∧
  (status (serve (download_plot plot_name) w).1 = 200%Z ∨
   status (serve (download_plot plot_name) w).1 = 404%Z ∨
   status (serve (download_plot plot_name) w).1 = 500%Z).
Proof.
  split_and!.
  - apply try_400_outcomes, upload_file_body_json.
  - apply try_400_outcomes, generate_all_plots_body_json.
  - unfold serve, download_plot, bind, get_world.
    destruct (Os.path_exists w (join PLOT_DIR plot_name)); cbn; [|tauto].
    destruct (Os.stat w (join PLOT_DIR plot_name)) as [[|data]|]; cbn; tauto.
Qed.

End Never.

(** ** Errors and edges *)

Section Edges.
Context {libs : Collaborators}.
Import PyStr OsPath.

Lemma pd_read_excel_raises content e w :
  read_excel content = Raised e →
  pd_read_excel content w = (Raised e, logged w [CallReadExcel content]).
Proof. intros Hread. unfold pd_read_excel, bind, log, lift. cbn. by rewrite Hread. Qed.

Lemma plot_raises df req e w :
  render df req = Raised e →
  plot df req w = (Raised e, logged w [CallPlot req]).
Proof. intros Hr. unfold plot, bind, log, lift. cbn. by rewrite Hr. Qed.

(** The client never gets a handler's own message as it was raised.  The
    400 raised for a bad extension or for a table without numeric columns is
    caught by the handler's own [except Exception] and raised again, so its
    detail is the endpoint's prefix followed by [str] of that first
    exception; an error of the parser is reported the same way, after the
    parser was called and before anything else happened. *)
Theorem errors_are_wrapped (upload : UploadFile) (w : world) (name : string) :
  filename upload = Some name →
  (endswith_any name [".xls"; ".xlsx"] = false →
     upload_file upload w =
       (Raised (HTTPException 400
          ("An error occurred while processing the file: " +:+
           str_of (HTTPException 400
                     "Invalid file format. Only Excel files are allowed."))), w) ∧
     generate_all_plots upload w =
       (Raised (HTTPException 400
          ("An error occurred while creating plots: " +:+
           str_of (HTTPException 400
                     "Invalid file format. Only Excel files are allowed."))), w)) ∧
  (endswith_any name [".xls"; ".xlsx"] = true →
     (∀ e, read_excel (file upload) = Raised e →
        upload_file upload w =
          (Raised (HTTPException 400
             ("An error occurred while processing the file: " +:+ str_of e)),
           logged w [CallReadExcel (file upload)]) ∧
        generate_all_plots upload w =
          (Raised (HTTPException 400
             ("An error occurred while creating plots: " +:+ str_of e)),
           logged w [CallReadExcel (file upload)])) ∧
     (∀ df, read_excel (file upload) = Returned df → numeric_columns df = [] →
        generate_all_plots upload w =
          (Raised (HTTPException 400
             ("An error occurred while creating plots: " +:+
              str_of (HTTPException 400 "No numeric columns found to plot."))),
           logged w [CallReadExcel (file upload)]))).
Proof.
  intros Hname. split.
  - intros Hext.
    assert (Hval : validate_extension upload w =
      (Raised (HTTPException 400
                 "Invalid file format. Only Excel files are allowed."), w)).
    { unfold validate_extension. by rewrite Hname, Hext. }
    split.
    + unfold upload_file, upload_file_body.
      erewrite try_except_raised; [done|]. by apply bind_raised.
    + unfold generate_all_plots, generate_all_plots_body.
      erewrite try_except_raised; [done|]. by apply bind_raised.
  - intros Hext.
    pose proof (validate_extension_accepts upload w name Hname Hext) as Hval.
    split.
    + intros e Hread. split.
      * unfold upload_file, upload_file_body.
        erewrite try_except_raised; [done|].
        erewrite bind_returned by exact Hval.
        apply bind_raised. by apply pd_read_excel_raises.
      * unfold generate_all_plots, generate_all_plots_body.
        erewrite try_except_raised; [done|].
        erewrite bind_returned by exact Hval.
        apply bind_raised. by apply pd_read_excel_raises.
    + intros df Hread Hnum.
      unfold generate_all_plots, generate_all_plots_body.
      erewrite try_except_raised; [done|].
      erewrite bind_returned by exact Hval.
      erewrite bind_returned by by apply pd_read_excel_returns.
      by rewrite numeric_columns_normalize, Hnum.
Qed.

(** The parser is called exactly for the uploads whose file name ends in
    [.xls] or [.xlsx]: for those, whatever the content, [/upload/] makes
    one call to the parser and no other; for every other upload it makes no
    call at all. *)
Theorem parser_called_iff_excel_name (upload : UploadFile) (w : world) :
  ((∃ name stem, filename upload = Some name ∧
                 (name = stem +:+ ".xls" ∨ name = stem +:+ ".xlsx")) ↔
   calls (upload_file upload w).2 = calls w ++ [CallReadExcel (file upload)]) ∧
  (¬ (∃ name stem, filename upload = Some name ∧
                   (name = stem +:+ ".xls" ∨ name = stem +:+ ".xlsx")) ↔
   (upload_file upload w).2 = w).
Proof.
  assert (Hcalled : ∀ name, filename upload = Some name →
            endswith_any name [".xls"; ".xlsx"] = true →
            calls (upload_file upload w).2 = calls w ++ [CallReadExcel (file upload)]).
  { intros name Hname Hext.
    unfold upload_file, upload_file_body, try_except.
    erewrite bind_returned by by eapply validate_extension_accepts.
    unfold bind, pd_read_excel, bind, log, lift. cbn.
    destruct (read_excel (file upload)) as [df|e]; [|done].
    unfold json_response.
    by destruct (json_error _). }
  assert (Hnot : (∀ name, filename upload = Some name →
                    endswith_any name [".xls"; ".xlsx"] = false) →
            (upload_file upload w).2 = w).
  { intros Hext.
    destruct (validate_extension_rejects upload w Hext) as [e He].
    unfold upload_file, upload_file_body.
    erewrite try_except_raised; [done|]. by apply bind_raised. }
  assert (Hspec : ∀ name, endswith_any name [".xls"; ".xlsx"] = true ↔
            ∃ stem, name = stem +:+ ".xls" ∨ name = stem +:+ ".xlsx").
  { intros name. unfold endswith_any. cbn [existsb].
    rewrite orb_false_r, orb_true_iff, !endswith_spec. split.
    - intros [[stem ->]|[stem ->]]; exists stem; tauto.
    - intros [stem [-> | ->]]; [left|right]; by exists stem. }
  assert (Hdec : (∃ name stem, filename upload = Some name ∧
                    (name = stem +:+ ".xls" ∨ name = stem +:+ ".xlsx")) ∨
                 (∀ name, filename upload = Some name →
                    endswith_any name [".xls"; ".xlsx"] = false)).
  { destruct (filename upload) as [name|]; [|by right].
    destruct (endswith_any name [".xls"; ".xlsx"]) eqn:Hext.
    - left. apply Hspec in Hext as [stem Hstem]. by exists name, stem.
    - right. by intros name' [= <-]. }
  assert (Hlen : calls w ≠ calls w ++ [CallReadExcel (file upload)]).
  { intros Heq. apply (f_equal length) in Heq.
    rewrite length_app in Heq. cbn in Heq. lia. }
  split; split.
  - intros (name & stem & Hname & Hstem). apply (Hcalled name Hname).
    apply Hspec. by exists stem.
  - intros Hcalls. destruct Hdec as [Hyes|Hno]; [done|].
    rewrite (Hnot Hno) in Hcalls. by destruct Hlen.
  - intros Hnone. destruct Hdec as [Hyes|Hno]; [done|]. by apply Hnot.
  - intros Hw (name & stem & Hname & Hstem).
    assert (Hext : endswith_any name [".xls"; ".xlsx"] = true)
      by (apply Hspec; by exists stem).
    pose proof (Hcalled name Hname Hext) as Hcalls.
    rewrite Hw in Hcalls. by destruct Hlen.
Qed.

End Edges.

(** ** What [/upload/] returns *)

Section Upload.
Context {libs : Collaborators}.
Import PyStr OsPath.









End Upload.

(** ** Sweeps that go wrong *)

Section BadSweeps.
Context {libs : Collaborators}.
Import PyStr OsPath.

(** A sweep that fails keeps what it saved.  When the line plot of the
    first numeric column is rendered and saved and its bar plot then fails,
    [/generate-plots/] answers 400 with the plotting error in the detail
    and lists no URL - but the line artifact is in the store, and nothing
    after the failed plot was attempted. *)
Theorem failed_sweep_keeps_saved_figures (upload : UploadFile) (w : world)
    (name : string) (df : Table) (c : string) (rest : list string)
    (png : bytes) (e : exn) :
  filename upload = Some name →
  endswith_any name [".xls"; ".xlsx"] = true →
  read_excel (file upload) = Returned df →
  numeric_columns df = c :: rest →
  slash_free c = true →
  store_ok w →
  render (normalize df) (SeriesPlot c "line" ("Line Plot for " +:+ c) None)
    = Returned png →
  render (normalize df) (SeriesPlot c "bar" ("Bar Plot for " +:+ c) None)
    = Raised e →
  let w' :=
    logged
      (figure_saved (logged w [CallReadExcel (file upload)])
         (SeriesPlot c "line" ("Line Plot for " +:+ c) None,
          artifact_name c "line", png))
      [CallPlot (SeriesPlot c "bar" ("Bar Plot for " +:+ c) None)] in
  serve (generate_all_plots upload) w =
    (Response 400 "application/json" None
       (BodyJSON (PDict [("detail",
          PStr ("An error occurred while creating plots: " +:+ str_of e))])),
     w') ∧
  artifact w' (artifact_name c "line") = Some png ∧
  (∀ n, n ≠ artifact_name c "line" → artifact w' n = artifact w n).
Proof.
  intros Hname Hext Hread Hnum Hc Hok Hline Hbar w'.
  assert (Hok1 : store_ok (logged w [CallReadExcel (file upload)]))
    by by apply logged_ok.
  assert (Hsweep :
    plot_sweep (normalize df) (c :: rest) (logged w [CallReadExcel (file upload)])
      = (Raised e, w')).
  { unfold plot_sweep, plot_types.
    rewrite for_each_cons, for_each_cons.
    erewrite plot_one_line by done. cbn match.
    rewrite for_each_cons.
    assert (Hturn : ∀ paths v,
      plot_one (normalize df) (c :: rest) c "bar" paths v =
        (Raised e, logged v [CallPlot (SeriesPlot c "bar" ("Bar Plot for " +:+ c) None)])).
    { intros paths v. unfold plot_one. eval_eqb.
      apply bind_raised. by apply plot_raises. }
    by rewrite Hturn. }
  split_and!.
  - assert (Hbody : generate_all_plots_body upload w = (Raised e, w')).
    { unfold generate_all_plots_body.
      erewrite bind_returned by by eapply validate_extension_accepts.
      erewrite bind_returned by by apply pd_read_excel_returns.
      rewrite numeric_columns_normalize, Hnum.
      rewrite bool_decide_eq_false_2 by done.
      fold (normalize df). by apply bind_raised. }
    unfold serve, generate_all_plots.
    by erewrite try_except_raised by exact Hbody.
  - subst w'. rewrite artifact_logged, artifact_figure_saved.
    by rewrite decide_True.
  - intros n Hn. subst w'. rewrite artifact_logged, artifact_figure_saved.
    by rewrite decide_False.
Qed.

Lemma split_slash_dots n :
  slash_free n = true →
  split_slash ("plots/../" +:+ n) = ["plots"; ".."; n].
Proof.
  intros Hn. change ("plots/../" +:+ n) with ("plots" +:+ String "/" (".." +:+ String "/" n)).
  by rewrite !split_slash_app, (split_slash_slash_free n Hn).
Qed.

(** Column names are not checked before they become file names.  For a
    numeric column named [../n] the line plot is saved as
    [plots/../n_line.png], that is in the working directory, next to the
    store and not in it: no artifact of the store changes.  The URL listed
    for the figure names [n_line.png], which is not where it went. *)
Theorem column_name_escapes_store (df : Table) (cols : list string)
    (n : string) (paths : list string) (png : bytes) (w : world) :
  slash_free n = true →
  store_ok w →
  fs w !! (cwd w ++ [artifact_name n "line"]) ≠ Some Dir →
  render df (SeriesPlot ("../" +:+ n) "line" ("Line Plot for " +:+ "../" +:+ n) None)
    = Returned png →
  let path := "plots/../" +:+ artifact_name n "line" in
  let w' :=
    World (cwd w)
      (<[cwd w ++ [artifact_name n "line"] := File png]> (fs w))
      (calls w ++
         [CallPlot (SeriesPlot ("../" +:+ n) "line"
                      ("Line Plot for " +:+ "../" +:+ n) None);
          CallSavefig path]) in
  plot_one df cols ("../" +:+ n) "line" paths w = (Returned (paths ++ [path]), w') ∧
  (∀ m, artifact w' m = artifact w m) ∧
  plot_url path =
    "http://127.0.0.1:8000/download-plot/?plot_name=" +:+ artifact_name n "line" ∧
  Os.stat w' path = Some (File png) ∧
  Os.stat w' (join PLOT_DIR (artifact_name n "line")) =
    Os.stat w (join PLOT_DIR (artifact_name n "line")).
Proof.
  intros Hn Hok Hfree Hrender path w'.
  pose proof (artifact_name_ok n "line" Hn eq_refl) as Hname.
  destruct (entry_name_inv _ Hname) as (Hsf & Hne & Hdot & Hdots).
  destruct Hok as [Hcwd Hplots Hflat Hnames].
  assert (Hwalk : ∀ tree, tree !! cwd w = Some Dir →
            tree !! (cwd w ++ [PLOT_DIR]) = Some Dir →
            Os.walk tree (cwd w) ["plots"; ".."; artifact_name n "line"]
              = Some (cwd w ++ [artifact_name n "line"])).
  { intros tree Htc Htp. cbn [Os.walk]. rewrite Htc.
    change (String.eqb "plots" "" || String.eqb "plots" ".") with false.
    change (String.eqb "plots" "..") with false. cbn match.
    fold PLOT_DIR. rewrite Htp.
    change (String.eqb ".." "" || String.eqb ".." ".") with false.
    change (String.eqb ".." "..") with true. cbn match.
    rewrite removelast_last, Htc, Hne, Hdot, Hdots. done. }
  assert (Hres : ∀ v, cwd v = cwd w → fs v !! cwd w = Some Dir →
            fs v !! (cwd w ++ [PLOT_DIR]) = Some Dir →
            Os.resolve v path = Some (cwd w ++ [artifact_name n "line"])).
  { intros v Hv Htc Htp. unfold Os.resolve, path.
    change (String.eqb ("plots/../" +:+ artifact_name n "line") "") with false.
    change (startswith ("plots/../" +:+ artifact_name n "line") "/") with false.
    cbn match. rewrite (split_slash_dots _ Hsf), Hv. by apply Hwalk. }
  assert (Hkey : ∀ m, cwd w ++ [artifact_name n "line"] ≠ store_key w m).
  { intros m Heq. apply (f_equal length) in Heq.
    unfold store_key in Heq. rewrite !length_app in Heq. cbn in Heq. lia. }
  assert (Hstore : ∀ m, fs w' !! store_key w m = fs w !! store_key w m).
  { intros m. subst w'. cbn [fs]. by rewrite lookup_insert_ne. }
  split_and!.
  - unfold plot_one. eval_eqb.
    erewrite bind_returned by by apply plot_returns.
    unfold save_plot.
    change (join PLOT_DIR (("../" +:+ n) +:+ "_" +:+ "line" +:+ ".png")) with path.
    erewrite bind_returned by apply log_returns.
    rewrite logged_logged. cbn [app].
    unfold bind, write_file.
    match goal with
    | |- context [Os.resolve ?v path] => rewrite (Hres v eq_refl Hcwd Hplots)
    end.
    cbn [logged fs cwd calls].
    unfold path. rewrite (split_slash_dots _ Hsf). cbn [List.last].
    rewrite Hname.
    by destruct (fs w !! (cwd w ++ [artifact_name n "line"])) as [[|d]|].
  - intros m. unfold artifact.
    change (store_key w' m) with (store_key w m). by rewrite Hstore.
  - unfold plot_url, basename, path. by rewrite (split_slash_dots _ Hsf).
  - unfold Os.stat. rewrite (Hres w' eq_refl).
    + subst w'. cbn [fs mbind option_bind]. by rewrite lookup_insert_eq.
    + subst w'. cbn [fs]. rewrite lookup_insert_ne; [done|].
      intros Heq. apply (f_equal length) in Heq.
      rewrite length_app in Heq. cbn in Heq. lia.
    + subst w'. cbn [fs]. rewrite lookup_insert_ne; [done|].
      intros Heq. apply app_inv_head in Heq. injection Heq as Heq.
      apply (f_equal String.length) in Heq.
      unfold artifact_name in Heq. rewrite !length_app_string in Heq.
      cbn in Heq. lia.
  - unfold Os.stat.
    rewrite (resolve_in_store w _ Hcwd Hplots Hname).
    assert (Hres' : Os.resolve w' (join PLOT_DIR (artifact_name n "line"))
                    = Some (store_key w (artifact_name n "line"))).
    { apply (resolve_in_store w'); [| |done]; subst w'; cbn [fs cwd].
      - rewrite lookup_insert_ne; [done|].
        intros Heq. apply (f_equal length) in Heq.
        rewrite length_app in Heq. cbn in Heq. lia.
      - rewrite lookup_insert_ne; [done|].
        intros Heq. apply app_inv_head in Heq. injection Heq as Heq.
        apply (f_equal String.length) in Heq.
        unfold artifact_name in Heq. rewrite !length_app_string in Heq.
        cbn in Heq. lia. }
    rewrite Hres'. cbn [mbind option_bind]. apply Hstore.
Qed.

End BadSweeps.

(** ** Further concrete runs *)

Section FurtherRuns.
Import PyStr OsPath.



Lemma tree_ok_w_fresh : tree_ok (fs Demo.w_fresh).
Proof.
  intros k c [x Hx]. revert Hx.
  unfold Demo.w_fresh. cbn [fs list_to_map foldr uncurry].
  rewrite lookup_insert. case_decide as Hroot.
  { by destruct k. }
  rewrite lookup_insert. case_decide as Hsrv; [|by rewrite lookup_empty].
  intros _. destruct k as [|a k].
  - by rewrite lookup_insert_eq.
  - destruct k; discriminate Hsrv.
Qed.

Lemma slash_free_AB : Forall (λ c, slash_free c = true) ["A"; "B"].
Proof. by repeat constructor. Qed.

(** C4, the counterexample.  The sheet has exactly one numeric column,
    named [a/b]; the store is in place and every figure renders.  The first
    save goes to [plots/a/b_line.png], whose directory [plots/a] does not
    exist: the sweep raises, no artifact is produced, and the endpoint
    answers 400. *)
Lemma single_numeric_column_sweep_counterexample :
  numeric_columns Demo.t_slash = ["a/b"] ∧
  store_ok Demo.w0 ∧
  (∀ req, render (Collaborators := Demo.libs Demo.t_slash) Demo.t_slash req
          = Returned [Byte.x89]) ∧
  plot_sweep (libs := Demo.libs Demo.t_slash) Demo.t_slash ["a/b"] Demo.w0 =
    (Raised (PyError "FileNotFoundError" "plots/a/b_line.png"),
     logged Demo.w0
       [CallPlot (SeriesPlot "a/b" "line" "Line Plot for a/b" None);
        CallSavefig "plots/a/b_line.png"]) ∧
  fs (plot_sweep (libs := Demo.libs Demo.t_slash) Demo.t_slash ["a/b"] Demo.w0).2
    = fs Demo.w0 ∧
  status (serve (generate_all_plots (libs := Demo.libs Demo.t_slash) Demo.xlsx)
                Demo.w0).1 = 400%Z ∧
  ¬ (∀ (libs : Collaborators) df c w,
       numeric_columns df = [c] →
       store_ok w →
       (∀ req, ∃ png, render df req = Returned png) →
       ∃ w', plot_sweep df (numeric_columns df) w =
               (Returned [ join PLOT_DIR (artifact_name c "line");
                           join PLOT_DIR (artifact_name c "bar");
                           join PLOT_DIR (artifact_name c "hist") ], w')).
Proof.
  assert (Hsweep :
    plot_sweep (libs := Demo.libs Demo.t_slash) Demo.t_slash ["a/b"] Demo.w0 =
      (Raised (PyError "FileNotFoundError" "plots/a/b_line.png"),
       logged Demo.w0
         [CallPlot (SeriesPlot "a/b" "line" "Line Plot for a/b" None);
          CallSavefig "plots/a/b_line.png"])) by by vm_compute.
  split_and!.
  - reflexivity.
  - apply store_ok_w0.
  - reflexivity.
  - exact Hsweep.
  - by rewrite Hsweep.
  - by vm_compute.
  - intros Hclaim.
    destruct (Hclaim (Demo.libs Demo.t_slash) Demo.t_slash "a/b" Demo.w0
                eq_refl store_ok_w0 (λ _, ex_intro _ _ eq_refl))
      as [w' Hreturned].
    change (numeric_columns Demo.t_slash) with ["a/b"] in Hreturned.
    rewrite Hsweep in Hreturned. discriminate Hreturned.
Qed.

(** C10, the counterexample.  For the empty name the joined path is
    [plots/], and for [..] it is [plots/..]: both exist, as directories.
    The handler returns a [FileResponse] for them, which cannot be sent, and
    the client gets 500, not 200. *)
Lemma download_plot_directory_counterexample :
  Os.path_exists Demo.w0 (join PLOT_DIR "") = true ∧
  (serve (download_plot "") Demo.w0).1 = internal_server_error ∧
  Os.path_exists Demo.w0 (join PLOT_DIR "..") = true ∧
  (serve (download_plot "..") Demo.w0).1 = internal_server_error ∧
  ¬ (∀ w plot_name,
       Os.path_exists w (join PLOT_DIR plot_name) = true →
       status (serve (download_plot plot_name) w).1 = 200%Z).
Proof.
  assert (Hexists : Os.path_exists Demo.w0 (join PLOT_DIR "") = true)
    by by vm_compute.
  assert (Hserve : (serve (download_plot "") Demo.w0).1 = internal_server_error)
    by by vm_compute.
  split_and!; [done|done|by vm_compute|by vm_compute|].
  intros Hclaim. specialize (Hclaim Demo.w0 "" Hexists).
  rewrite Hserve in Hclaim. discriminate Hclaim.
Qed.

Lemma sweep_never_overwrites_itself_witness :
  ∃ paths w',
    plot_sweep (libs := Demo.libs Demo.tAB) Demo.tAB ["A"; "B"] Demo.w0
      = (Returned paths, w') ∧ NoDup paths.
Proof.
  destruct (sweep_never_overwrites_itself (libs := Demo.libs Demo.tAB)
              Demo.tAB ["A"; "B"] (λ _, [Byte.x89]) Demo.w0
              (λ _, eq_refl) store_ok_w0 slash_free_AB)
    as (paths & w' & Hsweep & Hpaths & _).
  - apply NoDup_cons. split.
    + intros Hin. apply list_elem_of_In in Hin. cbn in Hin.
      destruct Hin as [Hin|[]]. discriminate Hin.
    + apply NoDup_singleton.
  - exists paths, w'. split; [exact Hsweep|exact Hpaths].
Defined.

Lemma plot_sweep_closed_form_witness :
  length (sweep_names ["A"; "B"]) = 8%nat.
Proof.
  destruct (plot_sweep_closed_form (libs := Demo.libs Demo.tAB)
              Demo.tAB ["A"; "B"] (λ _, [Byte.x89]) Demo.w0
              (λ _, eq_refl) store_ok_w0 slash_free_AB)
    as (_ & _ & Hlen).
  exact Hlen.
Defined.

Lemma generated_plots_are_downloadable_witness :
  serve (download_plot "B_scatter.png")
    (serve (generate_all_plots (libs := Demo.libs Demo.tAB) Demo.xlsx) Demo.w0).2 =
  (Response 200 "image/png" (Some "B_scatter.png") (BodyBytes [Byte.x89]),
   (serve (generate_all_plots (libs := Demo.libs Demo.tAB) Demo.xlsx) Demo.w0).2).
Proof.
  destruct (generated_plots_are_downloadable (libs := Demo.libs Demo.tAB)
              Demo.xlsx Demo.w0 "data.xlsx" Demo.tAB (λ _, [Byte.x89])
              eq_refl eq_refl eq_refl (λ _, eq_refl) store_ok_w0
              ltac:(discriminate) slash_free_AB)
    as [_ Hdownload].
  destruct (Hdownload "B" "scatter") as [_ Hserved].
  - apply list_elem_of_In. cbn. tauto.
  - apply list_elem_of_In. cbn. tauto.
  - exact Hserved.
Defined.

Lemma generated_plots_are_archived_witness :
  ∃ zf,
    archive_all (generate_all_plots (libs := Demo.libs Demo.tAB) Demo.xlsx Demo.w1).2
      = (Returned zf,
         (generate_all_plots (libs := Demo.libs Demo.tAB) Demo.xlsx Demo.w1).2) ∧
    ("B_hist.png", [Byte.x89]) ∈ zf ∧
    ("old_hist.png", [Byte.x50]) ∈ zf.
Proof.
  destruct (generated_plots_are_archived (libs := Demo.libs Demo.tAB)
              Demo.xlsx Demo.w1 "data.xlsx" Demo.tAB (λ _, [Byte.x89])
              eq_refl eq_refl eq_refl (λ _, eq_refl) store_ok_w1
              ltac:(discriminate) slash_free_AB)
    as (zf & Harch & _ & Hnew & Hold).
  exists zf. split_and!.
  - exact Harch.
  - apply (Hnew "B" "hist"); apply list_elem_of_In; cbn; tauto.
  - apply Hold; [|by vm_compute].
    intros Hin. apply list_elem_of_In in Hin. cbn in Hin.
    repeat (destruct Hin as [Hin|Hin]; [discriminate Hin|]). done.
Defined.

Lemma regenerating_changes_nothing_witness :
  fs (generate_all_plots (libs := Demo.libs Demo.tAB) Demo.xlsx
        (generate_all_plots (libs := Demo.libs Demo.tAB) Demo.xlsx Demo.w0).2).2
  = fs (generate_all_plots (libs := Demo.libs Demo.tAB) Demo.xlsx Demo.w0).2.
Proof.
  destruct (regenerating_changes_nothing (libs := Demo.libs Demo.tAB)
              Demo.xlsx Demo.w0 "data.xlsx" Demo.tAB (λ _, [Byte.x89])
              eq_refl eq_refl eq_refl (λ _, eq_refl) store_ok_w0
              ltac:(discriminate) slash_free_AB)
    as (_ & _ & _ & Hfs & _).
  exact Hfs.
Defined.

Lemma no_handler_removes_files_witness :
  is_Some (fs (generate_all_plots (libs := Demo.libs_line_only Demo.tAB)
                 Demo.xlsx Demo.w1).2
           !! ["srv"; "plots"; "old_hist.png"]).
Proof.
  destruct (no_handler_removes_files (libs := Demo.libs_line_only Demo.tAB) Demo.xlsx)
    as [_ Hgrows].
  destruct (Hgrows Demo.w1 _ _ (surjective_pairing _)) as [_ Hkeep].
  destruct (Hkeep ["srv"; "plots"; "old_hist.png"]) as [_ Hsome].
  apply Hsome. vm_compute. eexists. reflexivity.
Defined.

Lemma errors_are_wrapped_witness :
  upload_file (libs := Demo.libs_unreadable) Demo.xlsx Demo.w0 =
    (Raised (HTTPException 400
       "An error occurred while processing the file: Excel file format cannot be determined"),
     logged Demo.w0 [CallReadExcel []]).
Proof.
  destruct (errors_are_wrapped (libs := Demo.libs_unreadable)
              Demo.xlsx Demo.w0 "data.xlsx" eq_refl)
    as [_ Hvalid].
  destruct (Hvalid eq_refl) as [Hparse _].
  destruct (Hparse (PyError "ValueError" "Excel file format cannot be determined")
              eq_refl)
    as [Hupload _].
  exact Hupload.
Defined.


Lemma failed_sweep_keeps_saved_figures_witness :
  (serve (generate_all_plots (libs := Demo.libs_line_only Demo.tAB) Demo.xlsx)
         Demo.w0).1 =
  Response 400 "application/json" None
    (BodyJSON (PDict [("detail",
       PStr "An error occurred while creating plots: no numeric data to plot")])).
Proof.
  destruct (failed_sweep_keeps_saved_figures (libs := Demo.libs_line_only Demo.tAB)
              Demo.xlsx Demo.w0 "data.xlsx" Demo.tAB "A" ["B"] [Byte.x89]
              (PyError "TypeError" "no numeric data to plot")
              eq_refl eq_refl eq_refl eq_refl eq_refl store_ok_w0 eq_refl eq_refl)
    as (Hserve & _).
  by rewrite Hserve.
Defined.

Lemma column_name_escapes_store_witness :
  plot_one (libs := Demo.libs Demo.t_dots) Demo.t_dots ["../x"] "../x" "line" []
    Demo.w0 =
  (Returned ["plots/../x_line.png"],
   World ["srv"]
     (<[["srv"; "x_line.png"] := File [Byte.x89]]> (fs Demo.w0))
     [CallPlot (SeriesPlot "../x" "line" "Line Plot for ../x" None);
      CallSavefig "plots/../x_line.png"]).
Proof.
  destruct (column_name_escapes_store (libs := Demo.libs Demo.t_dots)
              Demo.t_dots ["../x"] "x" [] [Byte.x89] Demo.w0
              eq_refl store_ok_w0)
    as (Hturn & _).
  - vm_compute. discriminate.
  - reflexivity.
  - exact Hturn.
Defined.

Lemma make_plot_dir_store_ok_witness :
  ∃ w', make_plot_dir Demo.w_fresh = (Returned tt, w') ∧ store_ok w'.
Proof.
  destruct (make_plot_dir_store_ok Demo.w_fresh tree_ok_w_fresh eq_refl)
    as [Hfresh _].
  destruct (Hfresh eq_refl) as (w' & Hmade & Hok & _).
  exists w'. split; [exact Hmade|exact Hok].
Defined.

Lemma download_all_plots_status_witness :
  (serve (download_all_plots (libs := Demo.libs Demo.tAB)) Demo.w1).1
  = internal_server_error.
Proof.
  destruct (download_all_plots_status (libs := Demo.libs Demo.tAB) Demo.w1)
    as (_ & Hbuilt & _).
  destruct (Hbuilt [("old_hist.png", [Byte.x50]); ("A_line.png", [Byte.x89])] Demo.w1)
    as [_ Hsent].
  - vm_compute. reflexivity.
  - exact Hsent.
Defined.

End FurtherRuns.
